(** * ios-simulator-mcp: the tool handlers and the screenshot registry

    A shallow embedding of [src/index.ts]: the five tool handlers
    ([get_booted_sim_id], [get_all_simulators], [take_screenshot],
    [boot_simulator], [delete_screenshot]), the in-memory [screenshots] map,
    and the per-screenshot resources registered on the MCP server.

    Conventions.
    - A JavaScript string is a [string]; one [ascii] stands for one code unit
      below 256.
    - The operating system (child processes, the file system, the clock) is
      an interface, [Host]; nothing is assumed about what it answers.
    - The URL parser of the runtime is an interface as well, [UrlParser]: the
      SDK parses the text of a read request before it looks at its table.
    - A handler is a computation over the process state which either
      completes normally or throws; a thrown error keeps the mutations made
      before it, as in JavaScript.
    - Handlers run to completion one after the other.  The registry is only
      touched in the synchronous tail of [take_screenshot] and in
      [delete_screenshot], so interleaving at an [await] changes the host's
      answers but not the way the registry is updated. *)

From Stdlib Require Import ZArith List Ascii String Strings.Byte Bool Lia.
From stdpp Require Import base option strings gmap pretty.
Import ListNotations.

Local Open Scope string_scope.
Local Open Scope list_scope.

(** ** JavaScript string primitives used by [index.ts] *)

Module Js.

(** [s.startsWith(p)] *)
Fixpoint startsWith (p s : string) : bool :=
  match p, s with
  | EmptyString, _ => true
  | String a p', String b s' => Ascii.eqb a b && startsWith p' s'
  | String _ _, EmptyString => false
  end.

(** [s.includes(needle)] *)
Fixpoint includes (needle s : string) : bool :=
  startsWith needle s ||
  match s with
  | EmptyString => false
  | String _ s' => includes needle s'
  end.

(** [s.split(sep)] for a separator of one code unit: the result is never
    empty, and the empty string splits into one empty part. *)
Fixpoint split (sep : ascii) (s : string) : list string :=
  match s with
  | EmptyString => [EmptyString]
  | String a s' =>
      if Ascii.eqb a sep then EmptyString :: split sep s'
      else match split sep s' with
           | [] => [String a EmptyString]
           | h :: t => String a h :: t
           end
  end.

(** [parts.join(sep)] *)
Fixpoint join (sep : string) (parts : list string) : string :=
  match parts with
  | [] => EmptyString
  | [p] => p
  | p :: rest => p +:+ sep +:+ join sep rest
  end.

(** White space of [String.prototype.trim] among the code units below 256:
    TAB, LF, VT, FF, CR, SP and NBSP. *)
Definition isWhiteSpace (c : ascii) : bool :=
  let n := N_of_ascii c in
  ((9 <=? n) && (n <=? 13) || (n =? 32) || (n =? 160))%N.

Fixpoint trimStart (s : string) : string :=
  match s with
  | EmptyString => EmptyString
  | String a s' => if isWhiteSpace a then trimStart s' else s
  end.

Fixpoint trimEnd (s : string) : string :=
  match s with
  | EmptyString => EmptyString
  | String a s' =>
      match trimEnd s' with
      | EmptyString => if isWhiteSpace a then EmptyString else String a EmptyString
      | t => String a t
      end
  end.

(** [s.trim()] *)
Definition trim (s : string) : string := trimEnd (trimStart s).

(** [a || b] on strings that may be [undefined]: the empty string is
    falsy, like [undefined]. *)
Definition truthy (o : option string) : option string :=
  match o with
  | Some EmptyString => None
  | other => other
  end.

Definition or_else (o : option string) (d : string) : string :=
  match truthy o with
  | Some s => s
  | None => d
  end.

End Js.

(** ** The regular expression [/\(([-0-9A-F]+)\)/] *)

Module UuidRegex.

(** The character class [[-0-9A-F]]. *)
Definition in_class (c : ascii) : bool :=
  let n := N_of_ascii c in
  ((n =? 45) || (48 <=? n) && (n <=? 57) || (65 <=? n) && (n <=? 70))%N.

(** The longest prefix of class characters, and what follows it: the
    greedy [[-0-9A-F]+]. *)
Fixpoint span (s : string) : string * string :=
  match s with
  | EmptyString => (EmptyString, EmptyString)
  | String c s' =>
      if in_class c then let (run, rest) := span s' in (String c run, rest)
      else (EmptyString, s)
  end.

(** A match anchored at the head of [s]: ["("], a non-empty greedy run, and
    [")"].  A shorter run cannot help, since the character after it would
    be a class character and not [")"]. *)
Definition match_here (s : string) : option string :=
  match s with
  | String "(" s' =>
      match span s' with
      | (String c run, String ")" _) => Some (String c run)
      | _ => None
      end
  | _ => None
  end.

(** Every character of [s] is in the class. *)
Fixpoint all_in_class (s : string) : bool :=
  match s with
  | EmptyString => true
  | String c s' => in_class c && all_in_class s'
  end.

(** [line.match(re)]: the leftmost match; the result is capture group 1. *)
Fixpoint exec (s : string) : option string :=
  match match_here s with
  | Some id => Some id
  | None =>
      match s with
      | EmptyString => None
      | String _ s' => exec s'
      end
  end.

End UuidRegex.

(** ** Node's [path] module (POSIX flavour: [xcrun] only exists on macOS) *)

Module Path.

Definition slash : ascii := "/".

(** One step of [normalizeString] on the stack of segments kept so far
    (most recent first). *)
Definition normalize_step (allowAboveRoot : bool) (stack : list string) (seg : string)
  : list string :=
  if String.eqb seg EmptyString || String.eqb seg "." then stack
  else if String.eqb seg ".." then
    match stack with
    | top :: below =>
        if String.eqb top ".." then (if allowAboveRoot then seg :: stack else stack)
        else below
    | [] => if allowAboveRoot then [seg] else []
    end
  else seg :: stack.

Definition normalizeString (path : string) (allowAboveRoot : bool) : string :=
  Js.join "/" (rev (fold_left (normalize_step allowAboveRoot) (Js.split slash path) [])).

Definition isAbsolute (path : string) : bool :=
  match path with
  | String c _ => Ascii.eqb c slash
  | EmptyString => false
  end.

Fixpoint endsWithSlash (path : string) : bool :=
  match path with
  | EmptyString => false
  | String c EmptyString => Ascii.eqb c slash
  | String _ rest => endsWithSlash rest
  end.

(** [path.normalize(p)] *)
Definition normalize (path : string) : string :=
  match path with
  | EmptyString => "."
  | _ =>
      let abs := isAbsolute path in
      let trailing := endsWithSlash path in
      match normalizeString path (negb abs) with
      | EmptyString => if abs then "/" else if trailing then "./" else "."
      | p =>
          let p' := if trailing then p +:+ "/" else p in
          if abs then "/" +:+ p' else p'
      end
  end.

(** [path.join(...parts)] *)
Definition join (parts : list string) : string :=
  match List.filter (fun p => negb (String.eqb p EmptyString)) parts with
  | [] => "."
  | nonempty => normalize (Js.join "/" nonempty)
  end.

(** The backwards scan of [path.dirname]: [rev_chars] are the code units at
    the indices [i], [i-1], ..., [1]. *)
Fixpoint dirname_scan (rev_chars : list ascii) (i : nat) (matchedSlash : bool)
  : option nat :=
  match rev_chars with
  | [] => None
  | c :: before =>
      if Ascii.eqb c slash then
        if matchedSlash then dirname_scan before (Nat.pred i) true else Some i
      else dirname_scan before (Nat.pred i) false
  end.

(** [path.dirname(p)] *)
Definition dirname (path : string) : string :=
  match path with
  | EmptyString => "."
  | String c0 tail =>
      let hasRoot := Ascii.eqb c0 slash in
      match dirname_scan (rev (list_ascii_of_string tail)) (String.length tail) true with
      | None => if hasRoot then "/" else "."
      | Some e => if hasRoot && Nat.eqb e 1 then "//" else String.substring 0 e path
      end
  end.

(** [path.resolve(p)] with one argument, given [process.cwd()]. *)
Definition resolve (cwd path : string) : string :=
  let '(resolvedPath, resolvedAbsolute) :=
    match path with
    | EmptyString => (EmptyString, false)
    | _ => (path +:+ "/", isAbsolute path)
    end in
  let '(resolvedPath, resolvedAbsolute) :=
    if resolvedAbsolute then (resolvedPath, true)
    else match cwd with
         | EmptyString => (resolvedPath, false)
         | _ => (cwd +:+ "/" +:+ resolvedPath, isAbsolute cwd)
         end in
  let normalized := normalizeString resolvedPath (negb resolvedAbsolute) in
  if resolvedAbsolute then "/" +:+ normalized
  else match normalized with
       | EmptyString => "."
       | _ => normalized
       end.

End Path.

(** ** [Buffer.prototype.toString("base64")] *)

Module Base64.

Definition alphabet : string :=
  "ABCDEFGHIJKLMNOPQRSTUVWXYZabcdefghijklmnopqrstuvwxyz0123456789+/".

Definition digit (n : N) : ascii :=
  match String.get (N.to_nat n) alphabet with
  | Some c => c
  | None => "="%char
  end.

Fixpoint encode (bytes : list byte) : string :=
  match bytes with
  | [] => EmptyString
  | [a] =>
      let x := Byte.to_N a in
      String (digit (N.shiftr x 2))
        (String (digit (N.land (N.shiftl x 4) 63)) "==")
  | [a; b] =>
      let x := Byte.to_N a in
      let y := Byte.to_N b in
      String (digit (N.shiftr x 2))
        (String (digit (N.lor (N.land (N.shiftl x 4) 63) (N.shiftr y 4)))
           (String (digit (N.land (N.shiftl y 2) 63)) "="))
  | a :: b :: c :: rest =>
      let x := Byte.to_N a in
      let y := Byte.to_N b in
      let z := Byte.to_N c in
      String (digit (N.shiftr x 2))
        (String (digit (N.lor (N.land (N.shiftl x 4) 63) (N.shiftr y 4)))
           (String (digit (N.lor (N.land (N.shiftl y 2) 63) (N.shiftr z 6)))
              (String (digit (N.land z 63)) (encode rest))))
  end.

End Base64.

(** ** Values exchanged with the MCP client *)

Inductive ContentItem :=
| TextContent (text : string)
| ImageContent (data mimeType : string).

(** What a tool handler returns: [{ content: [...] }]. *)
Record CallToolResult := { content : list ContentItem }.

Inductive ResourceBody :=
| TextBody (text : string)
| BlobBody (blob : string).

Record ResourceContents := { uri : string; mimeType : string; body : ResourceBody }.

(** What a resource read returns: [{ contents: [...] }]. *)
Record ReadResourceResult := { contents : list ResourceContents }.

Definition text_result (t : string) : CallToolResult := {| content := [TextContent t] |}.

(** ** Thrown values *)

(** Everything thrown in this program is an [Error] object (child_process,
    fs and the MCP SDK throw nothing else). *)
Record JsError := { err_name : string; err_message : string }.

(** [String(error)], that is [Error.prototype.toString]. *)
Definition String_of_error (e : JsError) : string :=
  match err_name e, err_message e with
  | n, EmptyString => n
  | EmptyString, m => m
  | n, m => n +:+ ": " +:+ m
  end.

(** [error.message || String(error)] *)
Definition error_text (e : JsError) : string :=
  match err_message e with
  | EmptyString => String_of_error e
  | m => m
  end.

Inductive Completion (A : Type) :=
| Normal (a : A)
| Throw (e : JsError).
Arguments Normal {A} a.
Arguments Throw {A} e.

Definition is_normal {A} (c : Completion A) : bool :=
  match c with Normal _ => true | Throw _ => false end.

(** ** The host: child processes, file system, clock, environment *)

Class Host (W : Type) := {
  (** [process.env[name]], read once when the module is loaded *)
  process_env : string -> option string;
  (** [promisify(exec)(command)]: the [stdout] of the command, or the
      rejection (non-zero exit, command not found, ...) *)
  execAsync : string -> W -> Completion string * W;
  fs_existsSync : string -> W -> bool;
  (** [fs.mkdirSync(path, { recursive: true })] *)
  fs_mkdirSync : string -> W -> Completion unit * W;
  fs_readFileSync : string -> W -> Completion (list byte);
  (** [Date.now()] *)
  Date_now : W -> Z;
  (** [process.cwd()], which throws when the working directory is gone *)
  process_cwd : W -> Completion string;
}.

(** The calls made to the host, in order, with their outcome. *)
Inductive HostCall :=
| ExecCall (command : string) (ok : bool)
| ExistsCall (path : string) (found : bool)
| MkdirCall (path : string) (ok : bool)
| ReadFileCall (path : string) (ok : bool)
| CwdCall (ok : bool)
| NowCall (t : Z).

Definition failed (c : HostCall) : bool :=
  match c with
  | ExecCall _ ok | MkdirCall _ ok | ReadFileCall _ ok | CwdCall ok => negb ok
  | ExistsCall _ _ | NowCall _ => false
  end.

(** The commands handed to the shell, in order. *)
Fixpoint commands (calls : list HostCall) : list string :=
  match calls with
  | [] => []
  | ExecCall c _ :: rest => c :: commands rest
  | _ :: rest => commands rest
  end.

(** ** The JavaScript [Map] [screenshots] (insertion ordered) *)

Module JsMap.

Definition t := list (string * string).

Definition has (k : string) (m : t) : bool :=
  existsb (fun kv => String.eqb (fst kv) k) m.

(** [m.get(k)]; [index.ts] never calls it, the statements below use it to
    say what the map holds. *)
Fixpoint get (k : string) (m : t) : option string :=
  match m with
  | [] => None
  | (k', v) :: rest => if String.eqb k' k then Some v else get k rest
  end.

(** An existing key keeps its place, a new key goes last. *)
Fixpoint set (k v : string) (m : t) : t :=
  match m with
  | [] => [(k, v)]
  | (k', v') :: rest => if String.eqb k' k then (k, v) :: rest else (k', v') :: set k v rest
  end.

Definition delete (k : string) (m : t) : t :=
  List.filter (fun kv => negb (String.eqb (fst kv) k)) m.

Definition keys (m : t) : list string := map fst m.

End JsMap.

(** ** The MCP server's resource table *)

(** The two read callbacks of [index.ts], as closures: the list callback
    (line 52) reads [screenshots] when it is called; the per-screenshot
    callback (line 38) captured [data] when it was created. *)
Inductive ReadCallback :=
| ListCallback
| BlobCallback (data : string).

Record RegisteredResource := { res_name : string; readCallback : ReadCallback }.

(** [McpServer], reduced to [_registeredResources], a plain object keyed by
    URI. *)
Record McpServer := { registeredResources : gmap string RegisteredResource }.

Definition LF : string := String "010" EmptyString.

(** The double quote character, as a string. *)
Definition DQUOTE : string := String (ascii_of_nat 34) EmptyString.

Definition run_callback (cb : ReadCallback) (href : string) (shots : JsMap.t)
  : ReadResourceResult :=
  match cb with
  | ListCallback =>
      {| contents := [ {| uri := href; mimeType := "text/plain";
                          body := TextBody (Js.join LF (JsMap.keys shots)) |} ] |}
  | BlobCallback data =>
      {| contents := [ {| uri := href; mimeType := "image/png"; body := BlobBody data |} ] |}
  end.

(** ** [new URL(input)] *)

(** The SDK turns the text of a [resources/read] request into a [URL]
    before it looks at the table.  [URL_href input] is the [href] of
    that URL (what [uri.toString()] and [uri.href] give), or [None]
    where the constructor throws [TypeError: Invalid URL].  The parser
    belongs to the runtime; nothing is assumed of it here. *)
Class UrlParser := { URL_href : string -> option string }.

(** ** The process and the handler monad *)

Record Process (W : Type) := {
  screenshots : JsMap.t;
  server : McpServer;
  world : W;
  trace : list HostCall;
}.
Arguments screenshots {W} _.
Arguments server {W} _.
Arguments world {W} _.
Arguments trace {W} _.

Definition M (W A : Type) : Type := Process W -> Completion A * Process W.

Definition ret {W A} (a : A) : M W A := fun p => (Normal a, p).

Definition bind {W A B} (m : M W A) (k : A -> M W B) : M W B :=
  fun p =>
    match m p with
    | (Normal a, p') => k a p'
    | (Throw e, p') => (Throw e, p')
    end.

(** [try { body } catch (error) { handler }] *)
Definition try_catch {W A} (body : M W A) (handler : JsError -> M W A) : M W A :=
  fun p =>
    match body p with
    | (Normal a, p') => (Normal a, p')
    | (Throw e, p') => handler e p'
    end.

Notation "'let*' x ':=' m 'in' k" := (bind m (fun x => k))
  (at level 10, x name, m at level 100, k at level 200).

Section Server.

Context {W : Type} {host : Host W}.

Definition with_world (p : Process W) (w : W) (call : HostCall) : Process W :=
  {| screenshots := screenshots p; server := server p;
     world := w; trace := trace p ++ [call] |}.

Definition with_screenshots (p : Process W) (m : JsMap.t) : Process W :=
  {| screenshots := m; server := server p; world := world p; trace := trace p |}.

Definition with_server (p : Process W) (s : McpServer) : Process W :=
  {| screenshots := screenshots p; server := s; world := world p; trace := trace p |}.

(** *** Host calls, recorded in the trace *)

Definition exec (command : string) : M W string :=
  fun p =>
    let (r, w') := execAsync command (world p) in
    (r, with_world p w' (ExecCall command (is_normal r))).

Definition existsSync (path : string) : M W bool :=
  fun p =>
    let b := fs_existsSync path (world p) in
    (Normal b, with_world p (world p) (ExistsCall path b)).

Definition mkdirSync (path : string) : M W unit :=
  fun p =>
    let (r, w') := fs_mkdirSync path (world p) in
    (r, with_world p w' (MkdirCall path (is_normal r))).

Definition readFileSync (path : string) : M W (list byte) :=
  fun p =>
    let r := fs_readFileSync path (world p) in
    (r, with_world p (world p) (ReadFileCall path (is_normal r))).

Definition now : M W Z :=
  fun p =>
    let t := Date_now (world p) in
    (Normal t, with_world p (world p) (NowCall t)).

Definition cwd : M W string :=
  fun p =>
    let r := process_cwd (world p) in
    (r, with_world p (world p) (CwdCall (is_normal r))).

(** [path.resolve(path)]: the working directory is asked for only when the
    path is not absolute. *)
Definition path_resolve (path : string) : M W string :=
  if Path.isAbsolute path then ret (Path.resolve EmptyString path)
  else let* here := cwd in ret (Path.resolve here path).

(** *** index.ts, lines 14-22 *)

Definition SCREENSHOT_RESOURCE_DIR : string :=
  Js.or_else (process_env "SCREENSHOT_RESOURCE_DIR")
    (Path.join [Js.or_else (process_env "HOME") EmptyString; "Downloads"; "ios-simulator-screenshots"]).

(** [if (!fs.existsSync(d)) fs.mkdirSync(d, { recursive: true })], at lines
    20-22 and again at lines 156-158. *)
Definition ensure_directory (directory : string) : M W unit :=
  let* present := existsSync directory in
  if present then ret tt else mkdirSync directory.

(** *** The MCP SDK: [server.resource(name, uri, readCallback)] *)

(** [McpServer.prototype.resource] with a fixed URI: when the URI is already
    in [_registeredResources] it throws
    [Error(`Resource ${uri} is already registered`)]; otherwise it stores the
    callback under the URI. *)
Definition server_resource (name uri : string) (cb : ReadCallback) : M W unit :=
  fun p =>
    match registeredResources (server p) !! uri with
    | Some _ =>
        (Throw {| err_name := "Error";
                  err_message := "Resource " +:+ uri +:+ " is already registered" |}, p)
    | None =>
        (Normal tt,
         with_server p
           {| registeredResources :=
                <[uri := {| res_name := name; readCallback := cb |}]>
                  (registeredResources (server p)) |})
    end.

(** The SDK's handler of [resources/read], after the request's text has
    been parsed: [uri] is the href of the parsed URL.  The handler looks
    [uri.toString()] up in [_registeredResources] and calls the callback
    stored there with the URL.  The whole request, parsing included, is
    [resources_read] below. *)
Definition read_resource (uri : string) : M W ReadResourceResult :=
  fun p =>
    match registeredResources (server p) !! uri with
    | Some r => (Normal (run_callback (readCallback r) uri (screenshots p)), p)
    | None =>
        (Throw {| err_name := "McpError";
                  err_message := "MCP error -32602: Resource " +:+ uri +:+ " not found" |}, p)
    end.

(** A [resources/read] request whose [params.uri] is [input]:
    [const uri = new URL(request.params.uri)] throws for a text that is
    no URL; otherwise the table is asked for the href of the URL, which
    need not be the text that was sent. *)
Definition resources_read {url : UrlParser} (input : string) : M W ReadResourceResult :=
  match URL_href input with
  | None => fun p => (Throw {| err_name := "TypeError"; err_message := "Invalid URL" |}, p)
  | Some href => read_resource href
  end.

(** *** index.ts, lines 34-49 *)

Definition screenshot_uri (name : string) : string := "screenshot://" +:+ name.

Definition registerScreenshotResource (name data : string) : M W unit :=
  let* _ := (fun p => (Normal tt, with_screenshots p (JsMap.set name data (screenshots p)))) in
  server_resource ("screenshot-" +:+ name) (screenshot_uri name) (BlobCallback data).

(** *** Module initialisation: lines 14-62 *)

Definition module_init : M W unit :=
  let* _ := ensure_directory SCREENSHOT_RESOURCE_DIR in
  server_resource "screenshot-list" "screenshot://list" ListCallback.

Definition blank (w : W) : Process W :=
  {| screenshots := []; server := {| registeredResources := ∅ |}; world := w; trace := [] |}.

(** *** get_booted_sim_id: lines 68-103 *)

(** The [for (const line of lines)] loop: the name and the id of the first
    line that has both the marker and a match. *)
Fixpoint scan_lines (lines : list string) : option (string * string) :=
  match lines with
  | [] => None
  | line :: rest =>
      if Js.includes "Booted" line then
        match UuidRegex.exec line with
        | Some deviceId => Some (Js.trim (hd EmptyString (Js.split "(" line)), deviceId)
        | None => scan_lines rest
        end
      else scan_lines rest
  end.

Definition booted_text (deviceName deviceId : string) : string :=
  "Booted Simulator: " +:+ deviceName +:+ LF +:+ "UUID: " +:+ deviceId.

Definition get_booted_sim_id : M W CallToolResult :=
  try_catch
    (let* stdout := exec "xcrun simctl list devices" in
     match scan_lines (Js.split "010" stdout) with
     | Some (deviceName, deviceId) => ret (text_result (booted_text deviceName deviceId))
     | None => ret (text_result "No booted simulator found.")
     end)
    (fun error => ret (text_result ("Error: " +:+ error_text error))).

(** *** get_all_simulators: lines 109-122 *)

Definition get_all_simulators : M W CallToolResult :=
  try_catch
    (let* stdout := exec "xcrun simctl list devices" in
     ret (text_result stdout))
    (fun error => ret (text_result ("Error: " +:+ error_text error))).

(** *** take_screenshot: lines 131-197 *)

Definition screenshot_command (deviceId actualPath : string) : string :=
  "xcrun simctl io " +:+ deviceId +:+ " screenshot " +:+ DQUOTE +:+ actualPath +:+ DQUOTE.

Definition default_path (screenshotName : string) : string :=
  Path.join [SCREENSHOT_RESOURCE_DIR; screenshotName +:+ ".png"].

Definition take_screenshot (deviceId : string) (name outputPath : option string)
  : M W CallToolResult :=
  try_catch
    (let* screenshotName :=
       match Js.truthy name with
       | Some n => ret n
       | None => let* t := now in ret ("screenshot-" +:+ pretty t)
       end in
     let actualPath := Js.or_else outputPath (default_path screenshotName) in
     let directory := Path.dirname actualPath in
     let* _ := ensure_directory directory in
     let* _ := exec (screenshot_command deviceId actualPath) in
     let* absolutePath := path_resolve actualPath in
     let* imageBuffer := readFileSync actualPath in
     let base64Data := Base64.encode imageBuffer in
     let* _ := registerScreenshotResource screenshotName base64Data in
     ret {| content :=
              [ TextContent ("Screenshot saved to: " +:+ absolutePath +:+ LF +:+
                             "Accessible as resource: screenshot://" +:+ screenshotName);
                ImageContent base64Data "image/png" ] |})
    (fun error => ret (text_result ("Error taking screenshot: " +:+ error_text error))).

(** *** boot_simulator: lines 204-229 *)

Definition boot_simulator (deviceId : string) : M W CallToolResult :=
  try_catch
    (let* stdout := exec ("xcrun simctl boot " +:+ deviceId) in
     ret (text_result ("Successfully booted simulator with ID: " +:+ deviceId +:+ LF +:+ stdout)))
    (fun error => ret (text_result ("Error booting simulator: " +:+ error_text error))).

(** *** delete_screenshot: lines 236-274 *)

Definition delete_screenshot (name : string) : M W CallToolResult :=
  try_catch
    (fun p =>
       if JsMap.has name (screenshots p) then
         (Normal (text_result ("Successfully deleted screenshot: " +:+ name)),
          with_screenshots p (JsMap.delete name (screenshots p)))
       else
         (Normal (text_result ("Screenshot not found: " +:+ name)), p))
    (fun error => ret (text_result ("Error deleting screenshot: " +:+ error_text error))).

(** *** Requests *)

Inductive ToolCall :=
| GetBootedSimId
| GetAllSimulators
| TakeScreenshot (deviceId : string) (name outputPath : option string)
| BootSimulator (deviceId : string)
| DeleteScreenshot (name : string).

Definition call_tool (c : ToolCall) : M W CallToolResult :=
  match c with
  | GetBootedSimId => get_booted_sim_id
  | GetAllSimulators => get_all_simulators
  | TakeScreenshot deviceId name outputPath => take_screenshot deviceId name outputPath
  | BootSimulator deviceId => boot_simulator deviceId
  | DeleteScreenshot name => delete_screenshot name
  end.

(** Between two requests the outside world moves on its own. *)
Inductive Step :=
| Invoke (c : ToolCall)
| Outside (change : W -> W).

Definition run_step (s : Step) (p : Process W) : Process W :=
  match s with
  | Invoke c => snd (call_tool c p)
  | Outside change =>
      {| screenshots := screenshots p; server := server p;
         world := change (world p); trace := trace p |}
  end.

Definition run_steps (steps : list Step) (p : Process W) : Process W :=
  fold_left (fun q s => run_step s q) steps p.

(** The states the five tools can bring a freshly loaded server into. *)
Definition reachable (p : Process W) : Prop :=
  exists w p0 steps, module_init (blank w) = (Normal tt, p0) /\ p = run_steps steps p0.

End Server.

(** ** A small concrete host, to run the handlers on *)

Module Sim.

(** What a command line does when the shell runs it. *)
Inductive Outcome :=
| Prints (stdout : string)
| Captures (path : string) (pixels : list byte)
| Fails (stderr : string).

Record World := {
  clock : Z;
  workdir : string;
  dirs : list string;
  files : list (string * list byte);
  programs : list (string * Outcome);
  readonly : list string;
}.

Fixpoint assoc {A} (k : string) (l : list (string * A)) : option A :=
  match l with
  | [] => None
  | (k', v) :: rest => if String.eqb k' k then Some v else assoc k rest
  end.

Definition mem (k : string) (l : list string) : bool :=
  existsb (String.eqb k) l.

Definition failure (message : string) : JsError :=
  {| err_name := "Error"; err_message := message |}.

Definition run (command : string) (w : World) : Completion string * World :=
  match assoc command (programs w) with
  | Some (Prints out) => (Normal out, w)
  | Some (Captures path pixels) =>
      (Normal EmptyString,
       {| clock := clock w; workdir := workdir w; dirs := dirs w;
          files := (path, pixels) :: files w;
          programs := programs w; readonly := readonly w |})
  | Some (Fails stderr) =>
      (Throw (failure ("Command failed: " +:+ command +:+ LF +:+ stderr)), w)
  | None =>
      (Throw (failure ("Command failed: " +:+ command +:+ LF +:+ "/bin/sh: not found")), w)
  end.

Definition present (path : string) (w : World) : bool :=
  mem path (dirs w) || match assoc path (files w) with Some _ => true | None => false end.

Definition mkdir (path : string) (w : World) : Completion unit * World :=
  if mem path (readonly w) then
    (Throw (failure ("EACCES: permission denied, mkdir '" +:+ path +:+ "'")), w)
  else
    (Normal tt,
     {| clock := clock w; workdir := workdir w; dirs := path :: dirs w;
        files := files w; programs := programs w; readonly := readonly w |}).

Definition read (path : string) (w : World) : Completion (list byte) :=
  match assoc path (files w) with
  | Some bytes => Normal bytes
  | None =>
      Throw (failure ("ENOENT: no such file or directory, open '" +:+ path +:+ "'"))
  end.

Definition host (env : string -> option string) : Host World :=
  {| process_env := env;
     execAsync := run;
     fs_existsSync := present;
     fs_mkdirSync := mkdir;
     fs_readFileSync := read;
     Date_now := clock;
     process_cwd := fun w => Normal (workdir w) |}.

(** Only [HOME] is set. *)
Definition home_only (var : string) : option string :=
  if String.eqb var "HOME" then Some "/Users/dev" else None.

Definition shots_dir : string := "/Users/dev/Downloads/ios-simulator-screenshots".

Definition listing : string :=
  "== Devices ==" +:+ LF +:+
  "-- iOS 17.0 --" +:+ LF +:+
  "    iPhone 14 (11111111-2222-3333-4444-555555555555) (Shutdown)" +:+ LF +:+
  "    iPhone 15 (ABCD-1234-EF) (Booted)" +:+ LF.

Definition pixels1 : list byte := ["M"%byte; "a"%byte; "n"%byte].
Definition pixels2 : list byte := ["M"%byte; "a"%byte].

Definition capture (device path : string) (pixels : list byte) : string * Outcome :=
  ("xcrun simctl io " +:+ device +:+ " screenshot " +:+ DQUOTE +:+ path +:+ DQUOTE,
   Captures path pixels).

(** A machine with one booted device, [DEV]; the device [GONE] does not
    exist. *)
Definition mac : World :=
  {| clock := 1700000000000;
     workdir := "/work";
     dirs := ["/tmp"];
     files := [];
     programs :=
       [ ("xcrun simctl list devices", Prints listing);
         ("xcrun simctl boot DEV", Prints EmptyString);
         capture "DEV" (shots_dir +:+ "/home.png") pixels1;
         capture "DEV" "/tmp/home.png" pixels2;
         capture "DEV" (shots_dir +:+ "/list.png") pixels1;
         capture "DEV" (shots_dir +:+ "/screenshot-1700000000000.png") pixels1;
         ("xcrun simctl io GONE screenshot " +:+ DQUOTE +:+ "/tmp/x.png" +:+ DQUOTE,
          Fails "Invalid device: GONE") ];
     readonly := ["/private"] |}.

(** The same machine with another device listing. *)
Definition mac_listing (stdout : string) : World :=
  {| clock := clock mac; workdir := workdir mac; dirs := dirs mac; files := files mac;
     programs := [("xcrun simctl list devices", Prints stdout)];
     readonly := readonly mac |}.

Definition dev_host : Host World := host home_only.

Definition plain (c : ascii) : bool :=
  let n := nat_of_ascii c in
  (48 <=? n)%nat && (n <=? 57)%nat || (97 <=? n)%nat && (n <=? 122)%nat
  || Ascii.eqb c "-".

Fixpoint all_plain (s : string) : bool :=
  match s with
  | EmptyString => true
  | String c rest => plain c && all_plain rest
  end.

(** What follows [prefix] in [s]. *)
Fixpoint after (prefix s : string) : option string :=
  match prefix, s with
  | EmptyString, _ => Some s
  | String a prefix', String b s' => if Ascii.eqb a b then after prefix' s' else None
  | String _ _, EmptyString => None
  end.

(** The URL parser, cut down to the texts this machine is sent:
    [screenshot://] followed by lower-case letters, digits and hyphens (at
    least one), which [new URL] leaves as they are.  Every other text is
    turned away, also those the real parser would accept. *)
Definition href_of (input : string) : option string :=
  match after "screenshot://" input with
  | Some (String c rest) => if all_plain (String c rest) then Some input else None
  | _ => None
  end.

Definition dev_url : UrlParser := {| URL_href := href_of |}.

(** The server once [index.ts] is loaded on a machine. *)
Definition loaded (w : World) : Process World :=
  snd (module_init (host := dev_host) (blank w)).

(** A listing whose booted device prints its id in lower case. *)
Definition listing_lower : string :=
  "-- iOS 17.0 --" +:+ LF +:+
  "    iPad (abcd-12) (Booted)".

(** A listing whose first booted device has a parenthesis in its name. *)
Definition listing_generation : string :=
  "    iPhone SE (3rd generation) (AAAA-11) (Booted)" +:+ LF +:+
  "    iPad (BBBB-22) (Booted)".

(** Two captures under the name [home], the second one into [/tmp]. *)
Definition capture_twice : list (Step (W := World)) :=
  [ Invoke (TakeScreenshot "DEV" (Some "home") None);
    Invoke (TakeScreenshot "DEV" (Some "home") (Some "/tmp/home.png")) ].

(** A machine on which the screenshot directory cannot be created. *)
Definition locked : World :=
  {| clock := clock mac; workdir := workdir mac; dirs := dirs mac; files := files mac;
     programs := programs mac; readonly := [shots_dir] |}.

(** A machine without [xcrun]. *)
Definition bare : World :=
  {| clock := clock mac; workdir := workdir mac; dirs := dirs mac; files := files mac;
     programs := []; readonly := readonly mac |}.

End Sim.

(** ** Vocabulary of the statements *)

(** The host calls made while [m] runs from [p]. *)
Definition calls_during {W A} (m : M W A) (p : Process W) : list HostCall :=
  drop (length (trace p)) (trace (snd (m p))).

(** A tool response is an envelope: one text item, possibly followed by one
    PNG image. *)
Definition is_envelope (r : CallToolResult) : bool :=
  match content r with
  | [TextContent _] => true
  | [TextContent _; ImageContent _ mime] => String.eqb mime "image/png"
  | _ => false
  end.

(** The host calls of a capture into [actualPath], given how each of them
    went: the directory of the path is tested and, when it is not there,
    created; if the directory is there the capture command is run on the
    path; if the command succeeded the working directory is asked for (for
    a relative path only) and the file at the path is read back. *)
Definition capture_calls (deviceId actualPath : string)
    (found made captured located read_back : bool) : list HostCall :=
  ExistsCall (Path.dirname actualPath) found ::
  (if found then [] else [MkdirCall (Path.dirname actualPath) made]) ++
  (if found || made then
     ExecCall ("xcrun simctl io " +:+ deviceId +:+ " screenshot " +:+
               DQUOTE +:+ actualPath +:+ DQUOTE) captured ::
     (if captured then
        (if Path.isAbsolute actualPath then [] else [CwdCall located]) ++
        (if Path.isAbsolute actualPath || located
         then [ReadFileCall actualPath read_back] else [])
      else [])
   else []).

(** [line] is [pre], then a parenthesis group whose content [id] is one or
    more characters of the class [[-0-9A-F]], then [rest]. *)
Definition uuid_group_at (line pre id rest : string) : Prop :=
  line = pre +:+ "(" +:+ id +:+ ")" +:+ rest /\
  id <> EmptyString /\
  UuidRegex.all_in_class id = true.

(** [id] is the content of the first such group of [line]. *)
Definition leftmost_uuid_group (line id : string) : Prop :=
  exists pre rest,
    uuid_group_at line pre id rest /\
    forall pre' id' rest',
      uuid_group_at line pre' id' rest' -> String.length pre <= String.length pre'.

(** A line the loop of [get_booted_sim_id] passes over. *)
Definition skipped (line : string) : Prop :=
  Js.includes "Booted" line = false \/ UuidRegex.exec line = None.

(** The identifier extraction as the specification words it: the id is
    looked for in the first parenthesis group of the line, and is a run of
    hexadecimal digits (of either case) and hyphens. *)
Module Spec.

Definition is_hex_or_hyphen (c : ascii) : bool :=
  let n := N_of_ascii c in
  ((n =? 45) || (48 <=? n) && (n <=? 57) || (65 <=? n) && (n <=? 70)
   || (97 <=? n) && (n <=? 102))%N.

Fixpoint every (f : ascii -> bool) (s : string) : bool :=
  match s with
  | EmptyString => true
  | String c s' => f c && every f s'
  end.

(** The text up to the next closing parenthesis. *)
Fixpoint until_close (s : string) : option string :=
  match s with
  | EmptyString => None
  | String c s' =>
      if Ascii.eqb c ")" then Some EmptyString
      else option_map (String c) (until_close s')
  end.

(** The content of the first parenthesis group of the line. *)
Fixpoint first_group (line : string) : option string :=
  match line with
  | EmptyString => None
  | String c s' => if Ascii.eqb c "(" then until_close s' else first_group s'
  end.

Definition device_id (line : string) : option string :=
  match first_group line with
  | Some (String c g) =>
      if every is_hex_or_hyphen (String c g) then Some (String c g) else None
  | _ => None
  end.

(** The first line with the marker whose first group is an id: the text
    before the first parenthesis, and the id. *)
Fixpoint first_booted (lines : list string) : option (string * string) :=
  match lines with
  | [] => None
  | line :: rest =>
      match (if Js.includes "Booted" line then device_id line else None) with
      | Some id => Some (hd EmptyString (Js.split "(" line), id)
      | None => first_booted rest
      end
  end.

End Spec.

(** How the [catch] block of each tool starts its text. *)
Definition error_prefix (c : ToolCall) : string :=
  match c with
  | GetBootedSimId | GetAllSimulators => "Error: "
  | TakeScreenshot _ _ _ => "Error taking screenshot: "
  | BootSimulator _ => "Error booting simulator: "
  | DeleteScreenshot _ => "Error deleting screenshot: "
  end.

(** What reading the handle of a screenshot with bytes [data] returns. *)
Definition blob_contents (name data : string) : ReadResourceResult :=
  {| contents := [ {| uri := "screenshot://" +:+ name; mimeType := "image/png";
                      body := BlobBody data |} ] |}.

(** The invariant of the data model: a name in the registry has a handle
    whose read returns the bytes the registry holds for it. *)
Definition handles_current {W} (p : Process W) : Prop :=
  forall name data,
    JsMap.get name (screenshots p) = Some data ->
    fst (read_resource (screenshot_uri name) p) = Normal (blob_contents name data).

(** ** Vocabulary of the further properties *)

(** The entry of the aggregate resource in the server's table (lines
    52-62), and the entry a registration makes (lines 38-48). *)
Definition list_resource : RegisteredResource :=
  {| res_name := "screenshot-list"; readCallback := ListCallback |}.

Definition screenshot_resource (name data : string) : RegisteredResource :=
  {| res_name := "screenshot-" +:+ name; readCallback := BlobCallback data |}.

(** What reading [screenshot://list] returns when the registry holds
    [names], in this order. *)
Definition list_contents (names : list string) : ReadResourceResult :=
  {| contents := [ {| uri := "screenshot://list"; mimeType := "text/plain";
                      body := TextBody (Js.join LF names) |} ] |}.

(** The name [take_screenshot] works with (line 147), given the clock. *)
Definition chosen_name (name : option string) (t : Z) : string :=
  Js.or_else name ("screenshot-" +:+ pretty t).

(** The response of a capture that went through (lines 173-185). *)
Definition capture_response (absolutePath screenshotName base64Data : string)
  : CallToolResult :=
  {| content :=
       [ TextContent ("Screenshot saved to: " +:+ absolutePath +:+ LF +:+
                      "Accessible as resource: screenshot://" +:+ screenshotName);
         ImageContent base64Data "image/png" ] |}.

Definition has_image (r : CallToolResult) : bool :=
  existsb (fun item => match item with ImageContent _ _ => true | TextContent _ => false end)
    (content r).

(** The text of the error the SDK throws for a URI that is taken, as the
    [catch] block of [take_screenshot] reports it. *)
Definition already_registered (name : string) : CallToolResult :=
  text_result ("Error taking screenshot: Resource screenshot://" +:+ name +:+
               " is already registered").

(** The first and the last code unit of a string. *)
Definition first_char (s : string) : option ascii :=
  match s with
  | EmptyString => None
  | String c _ => Some c
  end.

Fixpoint last_char (s : string) : option ascii :=
  match s with
  | EmptyString => None
  | String c EmptyString => Some c
  | String _ rest => last_char rest
  end.

Definition is_space (o : option ascii) : bool :=
  match o with
  | Some c => Js.isWhiteSpace c
  | None => false
  end.

(** Every code unit of [s] is a digit of the base64 alphabet or the
    padding sign. *)
Fixpoint base64_text (s : string) : bool :=
  match s with
  | EmptyString => true
  | String c rest =>
      (Js.includes (String c EmptyString) Base64.alphabet || Ascii.eqb c "=")
      && base64_text rest
  end.

(** What every state the tools can reach satisfies. *)
Record well_formed_registry {W} (p : Process W) : Prop := {
  names_distinct : List.NoDup (JsMap.keys (screenshots p));
  no_empty_name : JsMap.has EmptyString (screenshots p) = false;
  names_have_handles :
    forall n, JsMap.has n (screenshots p) = true ->
              is_Some (registeredResources (server p) !! screenshot_uri n);
  data_is_base64 :
    forall n d, JsMap.get n (screenshots p) = Some d -> exists bytes, d = Base64.encode bytes;
  list_is_registered :
    registeredResources (server p) !! "screenshot://list" = Some list_resource;
  table_shape :
    forall u r,
      registeredResources (server p) !! u = Some r ->
      u = "screenshot://list" /\ r = list_resource \/
      exists n bytes,
        n <> EmptyString /\ u = screenshot_uri n /\
        r = screenshot_resource n (Base64.encode bytes);
}.

(** Each name of the registry has, under [screenshot://<name>], the entry
    whose callback holds the bytes the registry has for that name. *)
Definition table_current {W} (p : Process W) : Prop :=
  forall name data,
    JsMap.get name (screenshots p) = Some data ->
    registeredResources (server p) !! screenshot_uri name
    = Some (screenshot_resource name data).

(** [m], run from [p], runs the one command [command] and nothing else, and
    leaves the registry and the resource table as they were. *)
Definition only_runs {W} {host : Host W} {A} (m : M W A) (command : string)
    (p : Process W) : Prop :=
  screenshots (snd (m p)) = screenshots p /\
  server (snd (m p)) = server p /\
  calls_during m p = [ExecCall command (is_normal (fst (execAsync command (world p))))] /\
  world (snd (m p)) = snd (execAsync command (world p)).

(** * Properties *)

(** ** Sanity checks of the primitives *)

Example split_lines : Js.split "010" ("a" +:+ LF +:+ "b" +:+ LF) = ["a"; "b"; EmptyString].
Proof. reflexivity. Qed.
Example trim_both : Js.trim "    iPhone 15 " = "iPhone 15".
Proof. reflexivity. Qed.
Example exec_uuid : UuidRegex.exec "iPhone SE (3rd generation) (AB-12) (Booted)" = Some "AB-12".
Proof. reflexivity. Qed.
Example join_default :
  Path.join ["/Users/u"; "Downloads"; "ios-simulator-screenshots"]
  = "/Users/u/Downloads/ios-simulator-screenshots".
Proof. reflexivity. Qed.
Example join_no_home :
  Path.join [EmptyString; "Downloads"; "ios-simulator-screenshots"] = "Downloads/ios-simulator-screenshots".
Proof. reflexivity. Qed.
Example join_dots : Path.join ["/a/b/"; "../c.png"] = "/a/c.png".
Proof. reflexivity. Qed.
Example dirname_file : Path.dirname "/a/b/c.png" = "/a/b".
Proof. reflexivity. Qed.
Example dirname_bare : Path.dirname "c.png" = ".".
Proof. reflexivity. Qed.
Example dirname_root : Path.dirname "/c.png" = "/".
Proof. reflexivity. Qed.
Example resolve_rel : Path.resolve "/work" "out/../shot.png" = "/work/shot.png".
Proof. reflexivity. Qed.
Example base64_man : Base64.encode ["M"%byte; "a"%byte; "n"%byte] = "TWFu".
Proof. reflexivity. Qed.
Example base64_ma : Base64.encode ["M"%byte; "a"%byte] = "TWE=".
Proof. reflexivity. Qed.
Example base64_m : Base64.encode ["M"%byte] = "TQ==".
Proof. reflexivity. Qed.

(** ** What the string primitives compute *)

Lemma startsWith_prefix (p s : string) :
  Js.startsWith p s = true <-> exists rest, s = p +:+ rest.
Proof.
  revert s. induction p as [| a p IH]; intros s; cbn [Js.startsWith].
  - split; [exists s; reflexivity | reflexivity].
  - destruct s as [| b s].
    + split; [discriminate | intros [rest Hrest]; discriminate].
    + rewrite andb_true_iff, Ascii.eqb_eq, IH. split.
      * intros (-> & rest & ->). exists rest. reflexivity.
      * intros (rest & Hrest). injection Hrest as -> ->. eauto.
Qed.

Lemma includes_substring (needle s : string) :
  Js.includes needle s = true <-> exists before after, s = before +:+ needle +:+ after.
Proof.
  induction s as [| c s IH]; cbn [Js.includes]; rewrite orb_true_iff, startsWith_prefix.
  - split.
    + intros [(rest & Hrest) | Hfalse]; [| discriminate].
      exists EmptyString, rest. exact Hrest.
    + intros (before & after & Hs). left.
      destruct before; [exists after; exact Hs | discriminate].
  - rewrite IH. split.
    + intros [(rest & Hrest) | (before & after & ->)].
      * exists EmptyString, rest. exact Hrest.
      * exists (String c before), after. reflexivity.
    + intros (before & after & Hs). destruct before as [| b before].
      * left. exists after. exact Hs.
      * right. injection Hs as -> ->. eauto.
Qed.

(** Splitting loses nothing: joining the parts with the separator gives the
    string back. *)
Lemma join_split (sep : ascii) (s : string) :
  Js.join (String sep EmptyString) (Js.split sep s) = s.
Proof.
  induction s as [| c s IH]; [reflexivity |].
  cbn [Js.split].
  destruct (Ascii.eqb c sep) eqn:Hc.
  - apply Ascii.eqb_eq in Hc. subst c.
    destruct (Js.split sep s) as [| h t] eqn:Hsplit.
    + destruct s; cbn in Hsplit; [discriminate |].
      destruct (Ascii.eqb a sep); [discriminate |].
      destruct (Js.split sep s); discriminate.
    + cbn [Js.join] in *. now rewrite IH.
  - destruct (Js.split sep s) as [| h t] eqn:Hsplit.
    + destruct s; cbn in Hsplit; [discriminate |].
      destruct (Ascii.eqb a sep); [discriminate |].
      destruct (Js.split sep s); discriminate.
    + destruct t as [| h' t]; cbn [Js.join] in *; now rewrite <- IH.
Qed.

(** No part of a split contains the separator. *)
Lemma split_parts (sep : ascii) (s part : string) :
  In part (Js.split sep s) -> Js.includes (String sep EmptyString) part = false.
Proof.
  revert part. induction s as [| c s IH]; intros part; cbn [Js.split].
  - intros [<- | []]. reflexivity.
  - destruct (Ascii.eqb c sep) eqn:Hc.
    + intros [<- | Hin]; [reflexivity | auto].
    + destruct (Js.split sep s) as [| h t].
      * intros [<- | []]. cbn. rewrite Ascii.eqb_sym, Hc. reflexivity.
      * intros [<- | Hin]; [| apply IH; now right].
        cbn [Js.includes Js.startsWith]. rewrite Ascii.eqb_sym, Hc. cbn [andb orb].
        apply IH. now left.
Qed.

(** ** Tactics *)

Ltac unfold_handlers :=
  unfold call_tool, get_booted_sim_id, get_all_simulators, take_screenshot, boot_simulator,
    delete_screenshot, registerScreenshotResource, server_resource, ensure_directory,
    path_resolve, try_catch, bind, ret, exec, existsSync, mkdirSync, readFileSync, now,
    cwd in *.

(** Case analysis on the next answer of the host (or of the resource
    table) that the goal depends on. *)
Ltac host_case :=
  match goal with
  | |- context [match execAsync ?c ?w with _ => _ end] =>
      destruct (execAsync c w) as [[?stdout | ?e] ?w'] eqn:?Hexec
  | |- context [match fs_mkdirSync ?d ?w with _ => _ end] =>
      destruct (fs_mkdirSync d w) as [[[] | ?e] ?w'] eqn:?Hmkdir
  | |- context [match fs_existsSync ?d ?w with _ => _ end] =>
      destruct (fs_existsSync d w) eqn:?Hexists
  | |- context [match fs_readFileSync ?f ?w with _ => _ end] =>
      destruct (fs_readFileSync f w) as [?bytes | ?e] eqn:?Hread
  | |- context [match process_cwd ?w with _ => _ end] =>
      destruct (process_cwd w) as [?here | ?e] eqn:?Hcwd
  | |- context [match registeredResources ?s !! ?u with _ => _ end] =>
      destruct (registeredResources s !! u) eqn:?Hres
  | |- context [match Path.isAbsolute ?f with _ => _ end] =>
      destruct (Path.isAbsolute f) eqn:?Habsolute
  end.

Ltac step_host :=
  host_case;
  cbn -[String.append pretty Path.join Path.dirname Path.resolve Path.isAbsolute
        Base64.encode JsMap.set].

Ltac run_handler := unfold_handlers; cbn [fst snd]; repeat step_host.

(** ** Traces *)

Lemma drop_trace {A} (t new : list A) : drop (length t) (t ++ new) = new.
Proof. apply drop_app_length. Qed.

Section Frame.

Context {W : Type} {host : Host W}.

(** C8: [delete_screenshot] makes no call to the host and leaves the world
    as it was: whatever could be read from the disk before can be read
    after, for every path; only [screenshots] may differ. *)
Theorem delete_screenshot_leaves_disk (name : string) (p : Process W) :
  let p' := snd (delete_screenshot name p) in
  world p' = world p /\
  trace p' = trace p /\
  server p' = server p /\
  (forall path, fs_readFileSync path (world p') = fs_readFileSync path (world p)) /\
  (forall path, fs_existsSync path (world p') = fs_existsSync path (world p)).
Proof.
  unfold delete_screenshot, try_catch. cbn.
  destruct (JsMap.has name (screenshots p)); cbn; auto.
Qed.

End Frame.

(** Backtracking choice of a boolean witness. *)
Ltac any_bool := (exists true) + (exists false).

Ltac new_calls :=
  cbn [trace with_world with_server with_screenshots snd fst];
  rewrite <- ?app_assoc; rewrite ?drop_trace; cbn [app].

Lemma or_else_some (o : option string) (d s : string) :
  Js.truthy o = Some s -> Js.or_else o d = s.
Proof. unfold Js.or_else. now intros ->. Qed.

Lemma or_else_none (o : option string) (d : string) :
  Js.truthy o = None -> Js.or_else o d = d.
Proof. unfold Js.or_else. now intros ->. Qed.

Ltac run_take_screenshot name :=
  cbv zeta; unfold calls_during; unfold_handlers; cbn [fst snd];
  let Hname := fresh "Hname" in
  destruct (Js.truthy name) as [?n |] eqn:Hname;
  [ rewrite ?(or_else_some name _ _ Hname) | rewrite ?(or_else_none name _ Hname) ];
  cbn [fst snd world with_world];
  repeat step_host.

Section HandlerFacts.

Context {W : Type} {host : Host W} {url : UrlParser}.

(** The host calls of [take_screenshot], in order: the clock when no name
    was given, the existence test of the directory, [mkdirSync] when the
    test failed, the capture command when the directory is there, and the
    read back when the command succeeded. *)
Lemma take_screenshot_calls (deviceId : string) (name outputPath : option string)
    (p : Process W) :
  let t := Date_now (world p) in
  let screenshotName := Js.or_else name ("screenshot-" +:+ pretty t) in
  let actualPath := Js.or_else outputPath (default_path screenshotName) in
  let found := fs_existsSync (Path.dirname actualPath) (world p) in
  exists made captured located read_back : bool,
    calls_during (take_screenshot deviceId name outputPath) p =
      (match Js.truthy name with Some _ => [] | None => [NowCall t] end) ++
      capture_calls deviceId actualPath found made captured located read_back.
Proof.
  unfold capture_calls. run_take_screenshot name; new_calls; rewrite ?Habsolute.
  all: solve [ any_bool; any_bool; any_bool; any_bool; reflexivity ].
Qed.

(** C9: the shell commands are the templates with the caller's strings put
    in as they are, and they are what the host is given to run.
    [boot_simulator] hands [execAsync] the one command
    [xcrun simctl boot <deviceId>]: the world it leaves is the one that
    command leaves, and its answer is made of what the command answered.
    [take_screenshot], once the directory of the path is there (found, or
    created), hands [execAsync] the one command
    [xcrun simctl io <deviceId> screenshot "<path>"]: the world it leaves is
    the one that command leaves, and the command's error is the error it
    reports.  The path is [outputPath] when that is a non-empty string.  The
    one case in which it runs no command is when the directory could not be
    created. *)
Theorem commands_interpolate_verbatim (deviceId : string) (name outputPath : option string)
    (p : Process W) :
  let screenshotName := Js.or_else name ("screenshot-" +:+ pretty (Date_now (world p))) in
  let actualPath := Js.or_else outputPath (default_path screenshotName) in
  let boot := "xcrun simctl boot " +:+ deviceId in
  let capture :=
    "xcrun simctl io " +:+ deviceId +:+ " screenshot " +:+ DQUOTE +:+ actualPath +:+ DQUOTE in
  let directory := Path.dirname actualPath in
  let found := fs_existsSync directory (world p) in
  let made := is_normal (fst (fs_mkdirSync directory (world p))) in
  let there := if found then world p else snd (fs_mkdirSync directory (world p)) in
  let calls := calls_during (take_screenshot deviceId name outputPath) p in
  let r := fst (take_screenshot deviceId name outputPath p) in
  let p' := snd (take_screenshot deviceId name outputPath p) in
  (calls_during (boot_simulator deviceId) p
   = [ExecCall boot (is_normal (fst (execAsync boot (world p))))] /\
   world (snd (boot_simulator deviceId p)) = snd (execAsync boot (world p)) /\
   fst (boot_simulator deviceId p)
   = Normal (text_result
       match fst (execAsync boot (world p)) with
       | Normal stdout =>
           "Successfully booted simulator with ID: " +:+ deviceId +:+ LF +:+ stdout
       | Throw e => "Error booting simulator: " +:+ error_text e
       end)) /\
  (found || made = true ->
     commands calls = [capture] /\
     In (ExecCall capture (is_normal (fst (execAsync capture there)))) calls /\
     world p' = snd (execAsync capture there) /\
     (forall e, fst (execAsync capture there) = Throw e ->
        r = Normal (text_result ("Error taking screenshot: " +:+ error_text e)))) /\
  (found || made = false ->
     commands calls = [] /\
     In (MkdirCall directory false) calls /\
     world p' = snd (fs_mkdirSync directory (world p))) /\
  (forall out, outputPath = Some out -> out <> EmptyString -> actualPath = out).
Proof.
  cbv zeta. split; [| split; [| split]].
  - unfold calls_during. run_handler; new_calls; auto.
  - unfold take_screenshot, screenshot_command. run_take_screenshot name; new_calls; cbn [orb is_normal fst snd].
    all: try discriminate; intros _.
    all: (split; [reflexivity |]); (split; [cbn; auto 10 |]); (split; [reflexivity |]).
    all: intros ? [= <-]; reflexivity.
  - unfold take_screenshot, screenshot_command. run_take_screenshot name; new_calls; cbn [orb is_normal fst snd].
    all: try discriminate; intros _.
    all: (split; [reflexivity |]); (split; [cbn; auto 10 |]); reflexivity.
  - intros out -> Hout. destruct out; [congruence | reflexivity].
Qed.

(** C5: no tool handler throws.  Whatever the host answers, each of the five
    handlers completes normally with an envelope, and when a call to the host
    failed during the request the envelope is a single text item, made of
    the tool's error prefix and the text of the error. *)
Theorem tool_handlers_never_throw (c : ToolCall) (p : Process W) :
  exists r,
    fst (call_tool c p) = Normal r /\
    is_envelope r = true /\
    (existsb failed (calls_during (call_tool c) p) = true ->
     exists e, r = text_result (error_prefix c +:+ error_text e)).
Proof.
  destruct c as [| | deviceId name outputPath | deviceId | name].
  - unfold calls_during. run_handler;
      try (destruct (scan_lines _) as [[? ?] |]); new_calls; cbn;
      eexists; repeat split; try discriminate; eauto.
  - unfold calls_during. run_handler; new_calls; cbn;
      eexists; repeat split; try discriminate; eauto.
  - cbn [call_tool]. run_take_screenshot name; new_calls;
      eexists; (split; [reflexivity |]); (split; [reflexivity |]);
      cbn; try discriminate; eauto.
  - unfold calls_during. run_handler; new_calls; cbn;
      eexists; repeat split; try discriminate; eauto.
  - unfold calls_during. run_handler. destruct (JsMap.has _ _); new_calls; cbn;
      rewrite ?drop_all; eexists; repeat split; try discriminate; eauto.
Qed.

(** Loading the module is not protected in this way: a failure to create
    the screenshot directory is thrown out of the module's top level. *)
Lemma module_init_throws (w w' : W) (e : JsError) :
  fs_existsSync SCREENSHOT_RESOURCE_DIR w = false ->
  fs_mkdirSync SCREENSHOT_RESOURCE_DIR w = (Throw e, w') ->
  fst (module_init (blank w)) = Throw e.
Proof.
  intros Hexists Hmkdir. unfold module_init. unfold_handlers.
  cbn [world blank]. rewrite Hexists. cbn [world with_world]. now rewrite Hmkdir.
Qed.

(** C4: a failed capture changes nothing.  When a call to the host fails
    while [take_screenshot] runs (the capture command is rejected, the file
    cannot be read back, or the directory cannot be created), the response
    is the text [Error taking screenshot: ...] and both the registry and the
    resource table are what they were. *)
Theorem take_screenshot_all_or_nothing (deviceId : string) (name outputPath : option string)
    (p : Process W) :
  existsb failed (calls_during (take_screenshot deviceId name outputPath) p) = true ->
  let r := fst (take_screenshot deviceId name outputPath p) in
  let p' := snd (take_screenshot deviceId name outputPath p) in
  (exists e, r = Normal (text_result ("Error taking screenshot: " +:+ error_text e))) /\
  screenshots p' = screenshots p /\
  server p' = server p /\
  fst (read_resource "screenshot://list" p') = fst (read_resource "screenshot://list" p).
Proof.
  run_take_screenshot name; new_calls; cbn; try discriminate; intros _;
    (split; [eauto |]); repeat split;
    unfold read_resource; cbn [server screenshots with_world];
    destruct (_ !! _); reflexivity.
Qed.


(** ** The [screenshots] map *)

Lemma JsMap_get_set_same (k v : string) (m : JsMap.t) : JsMap.get k (JsMap.set k v m) = Some v.
Proof.
  induction m as [| [k' v'] m IH]; cbn.
  - now rewrite String.eqb_refl.
  - destruct (String.eqb k' k) eqn:E; cbn; rewrite ?String.eqb_refl, ?E; auto.
Qed.

Lemma JsMap_has_delete (k : string) (m : JsMap.t) : JsMap.has k (JsMap.delete k m) = false.
Proof.
  unfold JsMap.has, JsMap.delete.
  induction m as [| [k' v'] m IH]; cbn; [reflexivity |].
  destruct (String.eqb k' k) eqn:E; cbn; rewrite ?E; auto.
Qed.

Lemma JsMap_get_delete_same (k : string) (m : JsMap.t) : JsMap.get k (JsMap.delete k m) = None.
Proof.
  unfold JsMap.delete.
  induction m as [| [k' v'] m IH]; cbn; [reflexivity |].
  destruct (String.eqb k' k) eqn:E; cbn; rewrite ?E; auto.
Qed.

Lemma JsMap_get_delete_other (k other : string) (m : JsMap.t) :
  other <> k -> JsMap.get other (JsMap.delete k m) = JsMap.get other m.
Proof.
  intros Hne. unfold JsMap.delete.
  induction m as [| [k' v'] m IH]; cbn; [reflexivity |].
  destruct (String.eqb k' k) eqn:E; cbn.
  - apply String.eqb_eq in E. subst k'.
    destruct (String.eqb k other) eqn:E'; [apply String.eqb_eq in E'; congruence | exact IH].
  - now rewrite IH.
Qed.

Lemma JsMap_keys_delete (k : string) (m : JsMap.t) : ~ In k (JsMap.keys (JsMap.delete k m)).
Proof.
  unfold JsMap.keys, JsMap.delete. rewrite in_map_iff. intros ([k' v'] & Hk & Hin).
  apply filter_In in Hin. destruct Hin as [_ Hin]. cbn in *. subst k'.
  now rewrite String.eqb_refl in Hin.
Qed.

(** C6: [delete_screenshot] on a name in the registry answers
    [Successfully deleted screenshot: <name>] and takes the name out of the
    [screenshots] map: looking the name up afterwards finds no entry, and
    the other names keep theirs.  On a name not in the registry it answers
    [Screenshot not found: <name>] and changes nothing.  The resource table
    is not touched either way. *)
Theorem delete_screenshot_registry (name : string) (p : Process W) :
  let r := fst (delete_screenshot name p) in
  let p' := snd (delete_screenshot name p) in
  (JsMap.has name (screenshots p) = true ->
     r = Normal (text_result ("Successfully deleted screenshot: " +:+ name)) /\
     JsMap.has name (screenshots p') = false /\
     JsMap.get name (screenshots p') = None /\
     ~ In name (JsMap.keys (screenshots p')) /\
     (forall other, other <> name ->
        JsMap.get other (screenshots p') = JsMap.get other (screenshots p)) /\
     server p' = server p) /\
  (JsMap.has name (screenshots p) = false ->
     r = Normal (text_result ("Screenshot not found: " +:+ name)) /\ p' = p).
Proof.
  unfold delete_screenshot, try_catch. cbn zeta.
  destruct (JsMap.has name (screenshots p)) eqn:Hhas; cbn [fst snd];
    (split; [intros Heq | intros Heq]); try discriminate.
  - cbn [with_screenshots screenshots server].
    repeat split.
    + apply JsMap_has_delete.
    + apply JsMap_get_delete_same.
    + apply JsMap_keys_delete.
    + intros other Hne. now apply JsMap_get_delete_other.
  - split; reflexivity.
Qed.

(** ** Resource handles are never replaced *)

Lemma call_tool_server (c : ToolCall) (p : Process W) :
  server (snd (call_tool c p)) = server p \/
  exists uri res,
    registeredResources (server p) !! uri = None /\
    server (snd (call_tool c p))
    = {| registeredResources := <[uri := res]> (registeredResources (server p)) |}.
Proof.
  destruct c as [| | deviceId name outputPath | deviceId | name].
  - run_handler; try (destruct (scan_lines _) as [[? ?] |]); now left.
  - run_handler; now left.
  - cbn [call_tool]. run_take_screenshot name; try (now left).
    all: right; eauto.
  - run_handler; now left.
  - run_handler. destruct (JsMap.has _ _); now left.
Qed.

Lemma call_tool_keeps_resources (c : ToolCall) (p : Process W) (u : string)
    (r : RegisteredResource) :
  registeredResources (server p) !! u = Some r ->
  registeredResources (server (snd (call_tool c p))) !! u = Some r.
Proof.
  intros Hu.
  destruct (call_tool_server c p) as [-> | (uri & res & Hfree & ->)]; [exact Hu |].
  cbn [registeredResources].
  rewrite lookup_insert_ne; [exact Hu | intros ->; congruence].
Qed.

Lemma run_steps_keeps_resources (steps : list Step) (p : Process W) (u : string)
    (r : RegisteredResource) :
  registeredResources (server p) !! u = Some r ->
  registeredResources (server (run_steps steps p)) !! u = Some r.
Proof.
  revert p. induction steps as [| s steps IH]; intros p Hu; [exact Hu |].
  cbn [run_steps fold_left]. apply IH.
  destruct s as [c | change]; [now apply call_tool_keeps_resources | exact Hu].
Qed.

Lemma register_keeps_resources (name data : string) (p : Process W) (u : string)
    (r : RegisteredResource) :
  registeredResources (server p) !! u = Some r ->
  registeredResources (server (snd (registerScreenshotResource name data p))) !! u = Some r.
Proof.
  intros Hu. unfold_handlers. cbn [fst snd with_screenshots server].
  destruct (registeredResources (server p) !! screenshot_uri name) eqn:Hname;
    cbn [snd with_server with_screenshots server registeredResources]; [exact Hu |].
  rewrite lookup_insert_ne; [exact Hu | intros E; rewrite <- E in Hu; congruence].
Qed.

Lemma register_creates_handle (name data : string) (p : Process W) :
  registeredResources (server p) !! screenshot_uri name = None ->
  registeredResources (server (snd (registerScreenshotResource name data p)))
    !! screenshot_uri name
  = Some {| res_name := "screenshot-" +:+ name; readCallback := BlobCallback data |}.
Proof.
  intros Hu. unfold_handlers. cbn [fst snd with_screenshots server].
  rewrite Hu. cbn [snd with_server server registeredResources].
  apply lookup_insert_eq.
Qed.

Lemma read_blob_handle (name res data : string) (p : Process W) :
  registeredResources (server p) !! screenshot_uri name
  = Some {| res_name := res; readCallback := BlobCallback data |} ->
  fst (read_resource (screenshot_uri name) p) = Normal (blob_contents name data).
Proof. intros Hu. unfold read_resource. now rewrite Hu. Qed.

(** A request whose URL has the href [screenshot://<name>] is answered by
    the entry the table has under that href. *)
Lemma resources_read_blob (input name data : string) (p : Process W) :
  URL_href input = Some (screenshot_uri name) ->
  registeredResources (server p) !! screenshot_uri name
  = Some (screenshot_resource name data) ->
  resources_read input p = (Normal (blob_contents name data), p).
Proof.
  intros Hinput Hentry. unfold resources_read, read_resource.
  rewrite Hinput, Hentry. reflexivity.
Qed.

(** C10: a per-screenshot handle returns the data of the registration that
    created it on every later read.  After any sequence of tool calls (with
    the outside world changing in between), and also right after a further
    registration under the same name, the table still has under
    [screenshot://<name>] the entry whose callback holds the data of the
    first registration, and every read request whose URL has that href is
    answered with that data. *)
Theorem handle_keeps_creation_data (name data : string) (p : Process W) :
  registeredResources (server p) !! screenshot_uri name = None ->
  let created := snd (registerScreenshotResource name data p) in
  forall steps,
    let later := run_steps steps created in
    (registeredResources (server later) !! screenshot_uri name
     = Some (screenshot_resource name data) /\
     forall input,
       URL_href input = Some (screenshot_uri name) ->
       fst (resources_read input later) = Normal (blob_contents name data)) /\
    forall data',
      let again := snd (registerScreenshotResource name data' later) in
      registeredResources (server again) !! screenshot_uri name
      = Some (screenshot_resource name data) /\
      forall input,
        URL_href input = Some (screenshot_uri name) ->
        fst (resources_read input again) = Normal (blob_contents name data).
Proof.
  intros Hfresh created steps later.
  pose proof (register_creates_handle name data p Hfresh) as Hcreated.
  pose proof (run_steps_keeps_resources steps _ _ _ Hcreated) as Hlater.
  fold created in Hlater. fold later in Hlater.
  split; [split; [exact Hlater |] |].
  - intros input Hinput. now rewrite (resources_read_blob input name data later).
  - intros data' again.
    pose proof (register_keeps_resources name data' later _ _ Hlater) as Hagain.
    fold again in Hagain.
    split; [exact Hagain |].
    intros input Hinput. now rewrite (resources_read_blob input name data again).
Qed.

(** C2, on the code: the first registration under a name is read back as
    registered, but a second registration under that name throws after it
    has replaced the bytes in [screenshots], and the handle goes on
    returning the first bytes. *)
Theorem reregistration_keeps_first_bytes (name b1 b2 : string) (p : Process W) :
  registeredResources (server p) !! screenshot_uri name = None ->
  let first := registerScreenshotResource name b1 p in
  let second := registerScreenshotResource name b2 (snd first) in
  fst first = Normal tt /\
  fst (read_resource (screenshot_uri name) (snd first)) = Normal (blob_contents name b1) /\
  fst second =
    Throw {| err_name := "Error";
             err_message := "Resource " +:+ screenshot_uri name +:+ " is already registered" |} /\
  JsMap.get name (screenshots (snd second)) = Some b2 /\
  fst (read_resource (screenshot_uri name) (snd second)) = Normal (blob_contents name b1).
Proof.
  intros Hfresh first second.
  pose proof (register_creates_handle name b1 p Hfresh) as Hcreated.
  fold first in Hcreated.
  repeat split.
  - subst first. unfold_handlers. cbn [fst snd with_screenshots server]. now rewrite Hfresh.
  - eapply read_blob_handle, Hcreated.
  - subst second. unfold_handlers. cbn [fst snd with_screenshots server].
    unfold_handlers. now rewrite Hcreated.
  - subst second. unfold_handlers. cbn [fst snd with_screenshots server].
    unfold_handlers. rewrite Hcreated. cbn [snd screenshots]. apply JsMap_get_set_same.
  - eapply read_blob_handle, register_keeps_resources, Hcreated.
Qed.

(** ** Names and paths of a capture *)

(** C7, as amended.  Without [name] and [outputPath], [take_screenshot]
    reads the clock, works on the name [screenshot-<Date.now()>] and on the
    path [path.join(SCREENSHOT_RESOURCE_DIR, name + ".png")], and when no
    host call fails the bytes read back from that path are in the registry
    under that name, with a handle [screenshot://<name>].  The directory is
    the environment variable [SCREENSHOT_RESOURCE_DIR] when it is set and not
    empty, and otherwise [<HOME>/Downloads/ios-simulator-screenshots].  A
    non-empty [outputPath] is the path of the capture.  In each case the
    directory of the path is tested and created when it is not there. *)
Theorem take_screenshot_names_and_paths (deviceId : string) (p : Process W) :
  (let t := Date_now (world p) in
   let screenshotName := "screenshot-" +:+ pretty t in
   let actualPath := Path.join [SCREENSHOT_RESOURCE_DIR; screenshotName +:+ ".png"] in
   let calls := calls_during (take_screenshot deviceId None None) p in
   let p' := snd (take_screenshot deviceId None None p) in
   (exists made captured located read_back,
      calls = NowCall t ::
              capture_calls deviceId actualPath
                (fs_existsSync (Path.dirname actualPath) (world p))
                made captured located read_back) /\
   (existsb failed calls = false ->
      exists bytes,
        fs_readFileSync actualPath (world p') = Normal bytes /\
        JsMap.get screenshotName (screenshots p') = Some (Base64.encode bytes) /\
        is_Some (registeredResources (server p') !! ("screenshot://" +:+ screenshotName)))) /\
  ((forall dir, process_env "SCREENSHOT_RESOURCE_DIR" = Some dir -> dir <> EmptyString ->
      SCREENSHOT_RESOURCE_DIR = dir) /\
   (forall home, Js.truthy (process_env "SCREENSHOT_RESOURCE_DIR") = None ->
      process_env "HOME" = Some home -> home <> EmptyString ->
      SCREENSHOT_RESOURCE_DIR = Path.join [home; "Downloads"; "ios-simulator-screenshots"])) /\
  (forall name out, out <> EmptyString ->
     exists made captured located read_back,
       calls_during (take_screenshot deviceId name (Some out)) p =
         (match Js.truthy name with
          | Some _ => []
          | None => [NowCall (Date_now (world p))]
          end) ++
         capture_calls deviceId out
           (fs_existsSync (Path.dirname out) (world p)) made captured located read_back).
Proof.
  split; [| split].
  - cbv zeta. split.
    + destruct (take_screenshot_calls deviceId None None p)
        as (made & captured & located & read_back & Hcalls).
      exists made, captured, located, read_back. exact Hcalls.
    + unfold default_path. run_take_screenshot (@None string); new_calls; cbn;
        try discriminate; intros _; exists bytes; (split; [exact Hread |]);
        (split; [apply JsMap_get_set_same |]); unfold screenshot_uri in *;
        rewrite ?Hres, ?lookup_insert_eq; eauto.
  - unfold SCREENSHOT_RESOURCE_DIR. split.
    + intros dir -> Hdir. destruct dir; [congruence | reflexivity].
    + intros home Hunset -> Hhome.
      rewrite (or_else_none _ _ Hunset). destruct home; [congruence | reflexivity].
  - intros name out Hout.
    destruct (take_screenshot_calls deviceId name (Some out) p)
      as (made & captured & located & read_back & Hcalls).
    exists made, captured, located, read_back.
    assert (Js.or_else (Some out) (default_path
              (Js.or_else name ("screenshot-" +:+ pretty (Date_now (world p))))) = out) as E
      by (destruct out; [congruence | reflexivity]).
    cbv zeta in Hcalls. rewrite E in Hcalls. exact Hcalls.
Qed.

(** ** The regular expression finds the first parenthesised id *)

Lemma append_cons (c : ascii) (a b : string) : String c a +:+ b = String c (a +:+ b).
Proof. reflexivity. Qed.

Lemma append_empty (b : string) : EmptyString +:+ b = b.
Proof. reflexivity. Qed.

Lemma span_spec (s : string) :
  s = fst (UuidRegex.span s) +:+ snd (UuidRegex.span s) /\
  UuidRegex.all_in_class (fst (UuidRegex.span s)) = true /\
  match snd (UuidRegex.span s) with
  | String c _ => UuidRegex.in_class c = false
  | EmptyString => True
  end.
Proof.
  induction s as [| c s IH]; [cbn; auto |].
  cbn [UuidRegex.span].
  destruct (UuidRegex.in_class c) eqn:Hc.
  - destruct (UuidRegex.span s) as [run rest].
    cbn [fst snd String.append UuidRegex.all_in_class] in *.
    destruct IH as (Hs & Hrun & Hrest). rewrite Hrun. repeat split; auto.
    + now rewrite append_cons, <- Hs.
    + now rewrite Hc.
  - cbn [fst snd String.append UuidRegex.all_in_class]. auto.
Qed.

Lemma span_run (id tail : string) :
  UuidRegex.all_in_class id = true ->
  match tail with
  | String c _ => UuidRegex.in_class c = false
  | EmptyString => True
  end ->
  UuidRegex.span (id +:+ tail) = (id, tail).
Proof.
  intros Hid Htail.
  induction id as [| c id IH]; rewrite ?append_cons, ?append_empty;
    cbn [UuidRegex.span UuidRegex.all_in_class] in *.
  - destruct tail as [| c tail]; cbn [UuidRegex.span]; [reflexivity | now rewrite Htail].
  - apply andb_true_iff in Hid. destruct Hid as [Hc Hid].
    now rewrite Hc, IH.
Qed.

Lemma match_here_group (s id : string) :
  UuidRegex.match_here s = Some id <-> exists rest, uuid_group_at s EmptyString id rest.
Proof.
  unfold uuid_group_at. split.
  - unfold UuidRegex.match_here.
    destruct s as [| c s]; [discriminate |].
    destruct (Ascii.eqb c "(") eqn:Hc.
    + apply Ascii.eqb_eq in Hc. subst c.
      pose proof (span_spec s) as (Hs & Hrun & _).
      destruct (UuidRegex.span s) as [run rest]. cbn [fst snd] in *.
      destruct run as [| r run]; [discriminate |].
      destruct rest as [| c rest]; [discriminate |].
      destruct (Ascii.eqb c ")") eqn:Hclose.
      * apply Ascii.eqb_eq in Hclose. subst c. intros [= <-].
        exists rest. cbn. rewrite Hs. auto.
      * assert (c <> ")"%char) as Hne by now apply Ascii.eqb_neq.
        intros H. exfalso. revert H.
        destruct c as [[] [] [] [] [] [] [] []]; first [discriminate | congruence].
    + assert (c <> "("%char) as Hne by now apply Ascii.eqb_neq.
      intros H. exfalso. revert H.
      destruct c as [[] [] [] [] [] [] [] []]; first [discriminate | congruence].
  - intros (rest & -> & Hne & Hid).
    change (EmptyString +:+ "(" +:+ id +:+ ")" +:+ rest)
      with (String "(" (id +:+ String ")" rest)).
    unfold UuidRegex.match_here.
    rewrite (span_run id (String ")" rest) Hid) by reflexivity.
    destruct id; [congruence | reflexivity].
Qed.

Lemma exec_leftmost (line id : string) :
  UuidRegex.exec line = Some id <-> leftmost_uuid_group line id.
Proof.
  unfold leftmost_uuid_group. split.
  - revert id. induction line as [| c line IH]; intros id.
    + cbn. discriminate.
    + cbn [UuidRegex.exec].
      destruct (UuidRegex.match_here (String c line)) as [id0 |] eqn:Hhere.
      * intros [= <-]. apply match_here_group in Hhere. destruct Hhere as [rest Hgroup].
        exists EmptyString, rest. split; [exact Hgroup |]. intros; cbn; lia.
      * intros Hexec. destruct (IH id Hexec) as (pre & rest & (Hline & Hne & Hid) & Hleft).
        exists (String c pre), rest. split.
        -- split; [now rewrite (append_cons c pre), <- Hline | auto].
        -- intros pre' id' rest' Hgroup'. destruct pre' as [| c' pre'].
           ++ assert (UuidRegex.match_here (String c line) = Some id') as E
                by (apply match_here_group; eauto).
              congruence.
           ++ destruct Hgroup' as (Hline' & Hne' & Hid'). rewrite (append_cons c' pre') in Hline'.
              injection Hline' as -> Hline'.
              specialize (Hleft pre' id' rest' (conj Hline' (conj Hne' Hid'))).
              cbn. lia.
  - intros (pre & rest & Hgroup & Hleft). revert line Hgroup Hleft.
    induction pre as [| c pre IH]; intros line Hgroup Hleft.
    + assert (UuidRegex.match_here line = Some id) as E
        by (apply match_here_group; eauto).
      destruct line; cbn [UuidRegex.exec]; now rewrite E.
    + destruct Hgroup as (-> & Hne & Hid). rewrite (append_cons c pre) in *.
      cbn [UuidRegex.exec].
      destruct (UuidRegex.match_here _) as [id0 |] eqn:Hhere.
      * apply match_here_group in Hhere. destruct Hhere as [rest0 Hgroup0].
        specialize (Hleft _ _ _ Hgroup0). cbn in Hleft. lia.
      * apply IH; [split; auto |].
        intros pre' id' rest' (Hline' & Hne' & Hid').
        assert (uuid_group_at (String c (pre +:+ "(" +:+ id +:+ ")" +:+ rest))
                  (String c pre') id' rest') as Hgroup'
          by (split; [rewrite (append_cons c pre'); now f_equal | auto]).
        specialize (Hleft _ _ _ Hgroup'). cbn in Hleft. lia.
Qed.

(** The text before the first opening parenthesis. *)
Lemma before_first_paren (pre rest : string) :
  Js.includes "(" pre = false ->
  hd EmptyString (Js.split "(" (pre +:+ "(" +:+ rest)) = pre.
Proof.
  induction pre as [| c pre IH]; intros Hpre; [reflexivity |].
  rewrite (append_cons c pre). cbn [Js.split].
  cbn [Js.includes Js.startsWith] in Hpre.
  destruct (Ascii.eqb c "(") eqn:Hc.
  - rewrite Ascii.eqb_sym in Hc. rewrite Hc in Hpre. cbn in Hpre. discriminate.
  - rewrite Ascii.eqb_sym in Hc. rewrite Hc in Hpre. cbn [andb orb] in Hpre.
    specialize (IH Hpre).
    destruct (Js.split "(" (pre +:+ "(" +:+ rest)) as [| h t]; cbn in *; congruence.
Qed.

(** When the first parenthesis of the line already opens such a group, that
    group is the one the expression finds. *)
Lemma no_paren_before (pre pre' a b : string) :
  Js.includes "(" pre = false ->
  pre +:+ a = pre' +:+ "(" +:+ b ->
  String.length pre <= String.length pre'.
Proof.
  revert pre'. induction pre as [| c pre IH]; intros pre' Hpre Heq; [cbn; lia |].
  cbn [Js.includes Js.startsWith] in Hpre.
  apply orb_false_iff in Hpre. destruct Hpre as [Hc Hpre].
  destruct pre' as [| c' pre'].
  - rewrite (append_cons c pre) in Heq. injection Heq as -> _.
    cbn in Hc. discriminate.
  - rewrite (append_cons c pre), (append_cons c' pre') in Heq. injection Heq as -> Heq.
    specialize (IH pre' Hpre Heq). cbn. lia.
Qed.

Lemma first_group_is_leftmost (line pre id rest : string) :
  Js.includes "(" pre = false ->
  uuid_group_at line pre id rest ->
  leftmost_uuid_group line id /\ hd EmptyString (Js.split "(" line) = pre.
Proof.
  intros Hpre Hgroup. split.
  - exists pre, rest. split; [exact Hgroup |].
    intros pre' id' rest' (Hline' & _). destruct Hgroup as (Hline & _).
    rewrite Hline in Hline'. exact (no_paren_before _ _ _ _ Hpre Hline').
  - destruct Hgroup as (-> & _). now apply before_first_paren.
Qed.

Lemma scan_lines_skipped (lines : list string) :
  Forall skipped lines -> scan_lines lines = None.
Proof.
  induction 1 as [| line lines [Hno | Hno] _ IH]; cbn; [reflexivity | |].
  - now rewrite Hno.
  - rewrite Hno. now destruct (Js.includes "Booted" line).
Qed.

Lemma scan_lines_first (before after : list string) (line deviceId : string) :
  Forall skipped before ->
  Js.includes "Booted" line = true ->
  UuidRegex.exec line = Some deviceId ->
  scan_lines (before ++ line :: after)
  = Some (Js.trim (hd EmptyString (Js.split "(" line)), deviceId).
Proof.
  intros Hbefore Hbooted Hid.
  induction Hbefore as [| l before [Hno | Hno] _ IH]; cbn [app scan_lines].
  - now rewrite Hbooted, Hid.
  - now rewrite Hno.
  - rewrite Hno. now destruct (Js.includes "Booted" l).
Qed.

(** C3, as amended: [get_booted_sim_id] goes through the lines of the
    listing in order.  The first line that contains [Booted] and has a
    parenthesis group made only of the characters [-0-9A-F] (digits, upper
    case A to F, hyphen) gives the text
    [Booted Simulator: <name>\nUUID: <id>], where the id is the content of
    the first such group of the line and the name is the text before the
    first parenthesis of the line, trimmed.  A line with [Booted] and no
    such group is passed over.  If every line is passed over the answer is
    [No booted simulator found.] *)
Theorem get_booted_sim_id_scan (p : Process W) (stdout : string) (w' : W) :
  execAsync "xcrun simctl list devices" (world p) = (Normal stdout, w') ->
  (forall before line after deviceId,
     Js.split "010" stdout = before ++ line :: after ->
     Forall skipped before ->
     Js.includes "Booted" line = true ->
     leftmost_uuid_group line deviceId ->
     fst (get_booted_sim_id p)
     = Normal (text_result ("Booted Simulator: " +:+
                            Js.trim (hd EmptyString (Js.split "(" line)) +:+
                            LF +:+ "UUID: " +:+ deviceId))) /\
  (Forall skipped (Js.split "010" stdout) ->
   fst (get_booted_sim_id p) = Normal (text_result "No booted simulator found.")) /\
  (forall line, UuidRegex.exec line = None <-> ~ exists id, leftmost_uuid_group line id).
Proof.
  intros Hexec. split; [| split].
  - intros before line after deviceId Hlines Hbefore Hbooted Hid.
    apply exec_leftmost in Hid.
    unfold_handlers. rewrite Hexec. cbn [fst snd].
    rewrite Hlines, (scan_lines_first before after line deviceId Hbefore Hbooted Hid).
    reflexivity.
  - intros Hall. unfold_handlers. rewrite Hexec. cbn [fst snd].
    now rewrite (scan_lines_skipped _ Hall).
  - intros line. split.
    + intros Hnone (id & Hid). apply exec_leftmost in Hid. congruence.
    + intros Hno. destruct (UuidRegex.exec line) as [id |] eqn:E; [| reflexivity].
      exfalso. apply Hno. exists id. now apply exec_leftmost.
Qed.

End HandlerFacts.

(** * The handlers on a concrete machine *)

Section OnTheMac.

Import Sim.

Local Existing Instance dev_host.
Local Existing Instance dev_url.

Lemma loaded_mac : module_init (blank mac) = (Normal tt, loaded mac).
Proof. vm_compute. reflexivity. Qed.

(** C1, on the code: capturing twice under one name leads to a state where
    the registry holds the bytes of the second capture while the handle
    [screenshot://home] still returns the bytes of the first; the second
    call has answered with an error although the capture went through. *)
Theorem stale_handle_is_reachable :
  let p := run_steps capture_twice (loaded mac) in
  reachable p /\
  fst (call_tool (TakeScreenshot "DEV" (Some "home") (Some "/tmp/home.png"))
         (run_steps [Invoke (TakeScreenshot "DEV" (Some "home") None)] (loaded mac)))
  = Normal (text_result
              "Error taking screenshot: Resource screenshot://home is already registered") /\
  JsMap.get "home" (screenshots p) = Some (Base64.encode pixels2) /\
  fst (read_resource (screenshot_uri "home") p)
  = Normal (blob_contents "home" (Base64.encode pixels1)) /\
  ~ handles_current p.
Proof.
  cbv zeta. split; [| split; [| split; [| split]]].
  - exists mac, (loaded mac), capture_twice. split; [exact loaded_mac | reflexivity].
  - vm_compute. reflexivity.
  - vm_compute. reflexivity.
  - vm_compute. reflexivity.
  - intros Hcurrent.
    specialize (Hcurrent "home" (Base64.encode pixels2)).
    assert (JsMap.get "home" (screenshots (run_steps capture_twice (loaded mac)))
            = Some (Base64.encode pixels2)) as Hget by (vm_compute; reflexivity).
    specialize (Hcurrent Hget). vm_compute in Hcurrent. discriminate.
Qed.

(** The name [list] collides with the aggregate resource: the capture is
    stored in the registry, the call answers with an error, and
    [screenshot://list] goes on returning the list of names. *)
Example capture_named_list :
  let r := take_screenshot "DEV" (Some "list") None (loaded mac) in
  fst r = Normal (text_result
                    "Error taking screenshot: Resource screenshot://list is already registered") /\
  JsMap.get "list" (screenshots (snd r)) = Some (Base64.encode pixels1) /\
  fst (read_resource "screenshot://list" (snd r))
  = Normal {| contents := [ {| uri := "screenshot://list"; mimeType := "text/plain";
                               body := TextBody "list" |} ] |}.
Proof. cbv zeta. repeat split; vm_compute; reflexivity. Qed.

(** The second registration on the mac: [home] is free on the loaded server. *)
Lemma reregistration_keeps_first_bytes_witness :
  registeredResources (server (loaded mac)) !! screenshot_uri "home" = None /\
  let first := registerScreenshotResource "home" "TWFu" (loaded mac) in
  let second := registerScreenshotResource "home" "TWE=" (snd first) in
  JsMap.get "home" (screenshots (snd second)) = Some "TWE=" /\
  fst (read_resource (screenshot_uri "home") (snd second))
  = Normal (blob_contents "home" "TWFu").
Proof.
  assert (registeredResources (server (loaded mac)) !! screenshot_uri "home" = None) as Hfresh
    by (vm_compute; reflexivity).
  split; [exact Hfresh |].
  destruct (reregistration_keeps_first_bytes "home" "TWFu" "TWE=" (loaded mac) Hfresh)
    as (_ & _ & _ & Hget & Hread).
  split; [exact Hget | exact Hread].
Defined.

(** C3, as stated, fails on the code.  A booted device whose id is printed
    in lower case is an id for the specification's reading, and the code
    answers that nothing is booted.  A booted device whose name has a
    parenthesis is passed over by the specification's reading, which looks
    at the first group only, and the code reports it. *)
Lemma first_group_reading_counterexample :
  (Spec.first_booted (Js.split "010" listing_lower) = Some ("    iPad ", "abcd-12") /\
   fst (get_booted_sim_id (loaded (mac_listing listing_lower)))
   = Normal (text_result "No booted simulator found.")) /\
  (Spec.first_booted (Js.split "010" listing_generation) = Some ("    iPad ", "BBBB-22") /\
   fst (get_booted_sim_id (loaded (mac_listing listing_generation)))
   = Normal (text_result ("Booted Simulator: iPhone SE" +:+ LF +:+ "UUID: AAAA-11"))).
Proof. repeat split; vm_compute; reflexivity. Qed.

(** The scan on the mac's listing: three lines are passed over, the fourth
    is the booted iPhone 15. *)
Lemma get_booted_sim_id_scan_witness :
  execAsync "xcrun simctl list devices" (world (loaded mac)) = (Normal listing, world (loaded mac)) /\
  Js.includes "Booted" "    iPhone 15 (ABCD-1234-EF) (Booted)" = true /\
  leftmost_uuid_group "    iPhone 15 (ABCD-1234-EF) (Booted)" "ABCD-1234-EF" /\
  fst (get_booted_sim_id (loaded mac))
  = Normal (text_result ("Booted Simulator: iPhone 15" +:+ LF +:+ "UUID: ABCD-1234-EF")).
Proof.
  assert (execAsync "xcrun simctl list devices" (world (loaded mac))
          = (Normal listing, world (loaded mac))) as Hexec by (vm_compute; reflexivity).
  assert (leftmost_uuid_group "    iPhone 15 (ABCD-1234-EF) (Booted)" "ABCD-1234-EF") as Hid
    by (apply exec_leftmost; vm_compute; reflexivity).
  split; [exact Hexec |].
  split; [vm_compute; reflexivity |].
  split; [exact Hid |].
  destruct (get_booted_sim_id_scan (loaded mac) listing _ Hexec) as (Hfirst & _ & _).
  apply (Hfirst
           ["== Devices ==";
            "-- iOS 17.0 --";
            "    iPhone 14 (11111111-2222-3333-4444-555555555555) (Shutdown)"]
           "    iPhone 15 (ABCD-1234-EF) (Booted)"
           [EmptyString]).
  - vm_compute. reflexivity.
  - repeat constructor; left; vm_compute; reflexivity.
  - vm_compute. reflexivity.
  - exact Hid.
Defined.

(** A capture of the device [GONE], which the mac does not have. *)
Lemma take_screenshot_all_or_nothing_witness :
  let p := loaded mac in
  existsb failed (calls_during (take_screenshot "GONE" None (Some "/tmp/x.png")) p) = true /\
  (exists e,
     fst (take_screenshot "GONE" None (Some "/tmp/x.png") p)
     = Normal (text_result ("Error taking screenshot: " +:+ error_text e))) /\
  screenshots (snd (take_screenshot "GONE" None (Some "/tmp/x.png") p)) = screenshots p.
Proof.
  cbv zeta.
  assert (existsb failed
            (calls_during (take_screenshot "GONE" None (Some "/tmp/x.png")) (loaded mac)) = true)
    as Hfailed by (vm_compute; reflexivity).
  split; [exact Hfailed |].
  destruct (take_screenshot_all_or_nothing "GONE" None (Some "/tmp/x.png") (loaded mac) Hfailed)
    as (Herr & Hshots & _).
  split; [exact Herr | exact Hshots].
Defined.

(** The same failed capture, through the dispatcher. *)
Lemma tool_handlers_never_throw_witness :
  let c := TakeScreenshot "GONE" None (Some "/tmp/x.png") in
  existsb failed (calls_during (call_tool c) (loaded mac)) = true /\
  exists msg, fst (call_tool c (loaded mac)) = Normal (text_result msg).
Proof.
  cbv zeta.
  assert (existsb failed
            (calls_during (call_tool (TakeScreenshot "GONE" None (Some "/tmp/x.png")))
               (loaded mac)) = true)
    as Hfailed by (vm_compute; reflexivity).
  split; [exact Hfailed |].
  destruct (tool_handlers_never_throw (TakeScreenshot "GONE" None (Some "/tmp/x.png"))
              (loaded mac)) as (r & Hr & _ & Htext).
  destruct (Htext Hfailed) as (e & ->).
  eexists. exact Hr.
Defined.

(** Deleting a name does not retract its handle: after a capture under
    [home] and its deletion, a read request for [screenshot://home] is still
    answered with the bytes of the capture. *)
Example handle_outlives_deletion :
  let captured := snd (take_screenshot "DEV" (Some "home") None (loaded mac)) in
  let deleted := delete_screenshot "home" captured in
  fst deleted = Normal (text_result "Successfully deleted screenshot: home") /\
  JsMap.get "home" (screenshots (snd deleted)) = None /\
  fst (resources_read "screenshot://home" (snd deleted))
  = Normal (blob_contents "home" (Base64.encode pixels1)).
Proof. cbv zeta. repeat split; vm_compute; reflexivity. Qed.

(** A text that is no URL is turned away before the table is looked at. *)
Example request_that_is_no_url :
  fst (resources_read "screenshot://my shot" (loaded mac))
  = Throw {| err_name := "TypeError"; err_message := "Invalid URL" |}.
Proof. vm_compute. reflexivity. Qed.

(** Deleting [home] after a capture, and on the freshly loaded server. *)
Lemma delete_screenshot_registry_witness :
  let captured := snd (take_screenshot "DEV" (Some "home") None (loaded mac)) in
  (JsMap.has "home" (screenshots captured) = true /\
   fst (delete_screenshot "home" captured)
   = Normal (text_result "Successfully deleted screenshot: home") /\
   JsMap.get "home" (screenshots (snd (delete_screenshot "home" captured))) = None) /\
  (JsMap.has "home" (screenshots (loaded mac)) = false /\
   fst (delete_screenshot "home" (loaded mac))
   = Normal (text_result "Screenshot not found: home") /\
   snd (delete_screenshot "home" (loaded mac)) = loaded mac).
Proof.
  cbv zeta. split.
  - assert (JsMap.has "home"
              (screenshots (snd (take_screenshot "DEV" (Some "home") None (loaded mac)))) = true)
      as Hhas by (vm_compute; reflexivity).
    split; [exact Hhas |].
    destruct (delete_screenshot_registry "home"
                (snd (take_screenshot "DEV" (Some "home") None (loaded mac))))
      as (Hpresent & _).
    destruct (Hpresent Hhas) as (Htext & _ & Hget & _).
    split; [exact Htext | exact Hget].
  - assert (JsMap.has "home" (screenshots (loaded mac)) = false)
      as Hhas by (vm_compute; reflexivity).
    split; [exact Hhas |].
    destruct (delete_screenshot_registry "home" (loaded mac)) as (_ & Habsent).
    exact (Habsent Hhas).
Defined.

(** C7, as stated, fails on the code: an [outputPath] that is given as the
    empty string is not the path of the capture; the default path is. *)
Lemma empty_outputPath_counterexample :
  commands (calls_during (take_screenshot "DEV" (Some "home") (Some EmptyString)) (loaded mac))
  = ["xcrun simctl io DEV screenshot " +:+ DQUOTE +:+
     "/Users/dev/Downloads/ios-simulator-screenshots/home.png" +:+ DQUOTE] /\
  commands (calls_during (take_screenshot "DEV" (Some "home") (Some EmptyString)) (loaded mac))
  <> ["xcrun simctl io DEV screenshot " +:+ DQUOTE +:+ EmptyString +:+ DQUOTE].
Proof.
  split; [vm_compute; reflexivity |].
  intros H. vm_compute in H. discriminate.
Qed.

(** A capture without name and path on the mac, whose clock reads
    1700000000000 and whose environment only has [HOME]. *)
Lemma take_screenshot_names_and_paths_witness :
  let p' := snd (take_screenshot "DEV" None None (loaded mac)) in
  existsb failed (calls_during (take_screenshot "DEV" None None) (loaded mac)) = false /\
  process_env "HOME" = Some "/Users/dev" /\
  SCREENSHOT_RESOURCE_DIR = "/Users/dev/Downloads/ios-simulator-screenshots" /\
  (exists bytes,
     fs_readFileSync
       "/Users/dev/Downloads/ios-simulator-screenshots/screenshot-1700000000000.png"
       (world p') = Normal bytes /\
     JsMap.get "screenshot-1700000000000" (screenshots p') = Some (Base64.encode bytes)) /\
  (exists made captured located read_back,
     calls_during (take_screenshot "DEV" None (Some "/tmp/home.png")) (loaded mac)
     = NowCall 1700000000000 ::
       capture_calls "DEV" "/tmp/home.png" true made captured located read_back).
Proof.
  cbv zeta.
  destruct (take_screenshot_names_and_paths "DEV" (loaded mac))
    as ((_ & Hdefault) & (_ & Hdir) & Hexplicit).
  assert (existsb failed (calls_during (take_screenshot "DEV" None None) (loaded mac)) = false)
    as Hok by (vm_compute; reflexivity).
  split; [exact Hok |].
  split; [reflexivity |].
  split.
  - rewrite (Hdir "/Users/dev"); [reflexivity | reflexivity | reflexivity | discriminate].
  - split.
    + destruct (Hdefault Hok) as (bytes & Hread & Hget & _).
      exists bytes. split; [exact Hread | exact Hget].
    + destruct (Hexplicit None "/tmp/home.png")
        as (made & captured & located & read_back & Hcalls); [discriminate |].
      exists made, captured, located, read_back. exact Hcalls.
Defined.

(** A device id with shell syntax in it and a path with a space reach the
    command line as they are; on the machine whose screenshot directory
    cannot be created, no command is run. *)
Lemma commands_interpolate_verbatim_witness :
  (Some "/tmp/my shot.png" = Some "/tmp/my shot.png" /\
   "/tmp/my shot.png" <> EmptyString /\
   fs_existsSync "/tmp" (world (loaded mac)) = true /\
   calls_during (boot_simulator "DEV; rm -rf ~") (loaded mac)
   = [ExecCall "xcrun simctl boot DEV; rm -rf ~" false] /\
   commands (calls_during
               (take_screenshot "DEV; rm -rf ~" (Some "home") (Some "/tmp/my shot.png"))
               (loaded mac))
   = ["xcrun simctl io DEV; rm -rf ~ screenshot " +:+ DQUOTE +:+ "/tmp/my shot.png" +:+ DQUOTE] /\
   Js.or_else (Some "/tmp/my shot.png")
     (default_path
        (Js.or_else (Some "home")
           ("screenshot-" +:+ pretty (Date_now (world (loaded mac))))))
   = "/tmp/my shot.png") /\
  (fs_existsSync shots_dir (world (loaded locked)) = false /\
   is_normal (fst (fs_mkdirSync shots_dir (world (loaded locked)))) = false /\
   commands (calls_during (take_screenshot "DEV" (Some "home") None) (loaded locked)) = []).
Proof.
  split.
  - destruct (commands_interpolate_verbatim "DEV; rm -rf ~" (Some "home")
                (Some "/tmp/my shot.png") (loaded mac)) as ((Hboot & _) & Hthere & _ & Hpath).
    split; [reflexivity |].
    split; [discriminate |].
    split; [vm_compute; reflexivity |].
    split; [exact Hboot |].
    split; [exact (proj1 (Hthere ltac:(vm_compute; reflexivity))) |].
    apply Hpath; [reflexivity | discriminate].
  - destruct (commands_interpolate_verbatim "DEV" (Some "home") None (loaded locked))
      as (_ & _ & Hmissing & _).
    split; [vm_compute; reflexivity |].
    split; [vm_compute; reflexivity |].
    exact (proj1 (Hmissing ltac:(vm_compute; reflexivity))).
Defined.

(** The handle of [home] after a second capture under the name and a
    deletion. *)
Lemma handle_keeps_creation_data_witness :
  registeredResources (server (loaded mac)) !! screenshot_uri "home" = None /\
  URL_href "screenshot://home" = Some (screenshot_uri "home") /\
  let created := snd (registerScreenshotResource "home" "TWFu" (loaded mac)) in
  let later :=
    run_steps [ Invoke (TakeScreenshot "DEV" (Some "home") (Some "/tmp/home.png"));
                Invoke (DeleteScreenshot "home") ] created in
  JsMap.get "home" (screenshots later) = None /\
  fst (resources_read "screenshot://home" later) = Normal (blob_contents "home" "TWFu").
Proof.
  assert (registeredResources (server (loaded mac)) !! screenshot_uri "home" = None) as Hfresh
    by (vm_compute; reflexivity).
  assert (URL_href "screenshot://home" = Some (screenshot_uri "home")) as Hhome
    by (vm_compute; reflexivity).
  split; [exact Hfresh |]. split; [exact Hhome |].
  cbv zeta. split; [vm_compute; reflexivity |].
  exact (proj2 (proj1 (handle_keeps_creation_data "home" "TWFu" (loaded mac) Hfresh
                         [ Invoke (TakeScreenshot "DEV" (Some "home") (Some "/tmp/home.png"));
                           Invoke (DeleteScreenshot "home") ]))
           "screenshot://home" Hhome).
Defined.

End OnTheMac.

(** * Further properties of the code *)

(** ** The [screenshots] map, continued *)

Lemma JsMap_has_In (k : string) (m : JsMap.t) :
  JsMap.has k m = true <-> In k (JsMap.keys m).
Proof.
  unfold JsMap.has, JsMap.keys. rewrite existsb_exists, in_map_iff. split.
  - intros ([k' v] & Hin & Heq). apply String.eqb_eq in Heq. cbn in Heq. subst k'.
    exists (k, v). auto.
  - intros ([k' v] & Heq & Hin). cbn in Heq. subst k'.
    exists (k, v). split; [exact Hin | apply String.eqb_refl].
Qed.

Lemma JsMap_has_get (k : string) (m : JsMap.t) :
  JsMap.has k m = true <-> exists v, JsMap.get k m = Some v.
Proof.
  unfold JsMap.has. induction m as [| [k' v'] m IH]; cbn.
  - split; [discriminate | intros [v Hv]; discriminate].
  - destruct (String.eqb k' k); cbn; [split; eauto | exact IH].
Qed.

Lemma JsMap_keys_set (k v : string) (m : JsMap.t) :
  JsMap.keys (JsMap.set k v m)
  = if JsMap.has k m then JsMap.keys m else JsMap.keys m ++ [k].
Proof.
  unfold JsMap.has, JsMap.keys. induction m as [| [k' v'] m IH]; cbn; [reflexivity |].
  destruct (String.eqb k' k) eqn:E; cbn.
  - apply String.eqb_eq in E. now subst k'.
  - rewrite IH. now destruct (existsb _ m).
Qed.

Lemma JsMap_get_set_other (k v other : string) (m : JsMap.t) :
  other <> k -> JsMap.get other (JsMap.set k v m) = JsMap.get other m.
Proof.
  intros Hne. induction m as [| [k' v'] m IH]; cbn.
  - destruct (String.eqb k other) eqn:E; [apply String.eqb_eq in E; congruence | reflexivity].
  - destruct (String.eqb k' k) eqn:E; cbn.
    + apply String.eqb_eq in E. subst k'.
      destruct (String.eqb k other) eqn:E'; [apply String.eqb_eq in E'; congruence | reflexivity].
    + now rewrite IH.
Qed.

Lemma JsMap_keys_delete_filter (k : string) (m : JsMap.t) :
  JsMap.keys (JsMap.delete k m)
  = List.filter (fun name => negb (String.eqb name k)) (JsMap.keys m).
Proof.
  unfold JsMap.keys, JsMap.delete. induction m as [| [k' v'] m IH]; cbn; [reflexivity |].
  destruct (String.eqb k' k); cbn; now rewrite IH.
Qed.

Lemma filter_absent (k : string) (names : list string) :
  ~ In k names -> List.filter (fun name => negb (String.eqb name k)) names = names.
Proof.
  induction names as [| n names IH]; cbn; [reflexivity |].
  intros Hnot. destruct (String.eqb n k) eqn:E.
  - apply String.eqb_eq in E. subst n. exfalso. apply Hnot. now left.
  - cbn. rewrite IH; [reflexivity | intros Hin; apply Hnot; now right].
Qed.

Lemma NoDup_keys_set (k v : string) (m : JsMap.t) :
  List.NoDup (JsMap.keys m) -> List.NoDup (JsMap.keys (JsMap.set k v m)).
Proof.
  intros Hm. rewrite JsMap_keys_set.
  destruct (JsMap.has k m) eqn:Hhas; [exact Hm |].
  apply List.NoDup_app; [exact Hm | repeat constructor; intros [] |].
  intros x Hx [<- | []]. apply JsMap_has_In in Hx. congruence.
Qed.

Lemma NoDup_keys_delete (k : string) (m : JsMap.t) :
  List.NoDup (JsMap.keys m) -> List.NoDup (JsMap.keys (JsMap.delete k m)).
Proof. intros Hm. rewrite JsMap_keys_delete_filter. now apply List.NoDup_filter. Qed.

Lemma JsMap_get_delete_some (k other v : string) (m : JsMap.t) :
  JsMap.get other (JsMap.delete k m) = Some v -> other <> k /\ JsMap.get other m = Some v.
Proof.
  intros Hget. destruct (String.eqb other k) eqn:E.
  - apply String.eqb_eq in E. subst other. rewrite JsMap_get_delete_same in Hget. discriminate.
  - apply String.eqb_neq in E. split; [exact E |].
    now rewrite JsMap_get_delete_other in Hget.
Qed.

Section Beyond.

Context {W : Type} {host : Host W} {url : UrlParser}.

(** ** What a tool call does to the registry and to the resource table *)

Lemma append_inj (a b c : string) : a +:+ b = a +:+ c -> b = c.
Proof.
  induction a as [| x a IH]; [auto |].
  rewrite (append_cons x a b), (append_cons x a c). intros [= H]. auto.
Qed.

Lemma screenshot_uri_inj (n m : string) : screenshot_uri n = screenshot_uri m -> n = m.
Proof. apply append_inj. Qed.

Lemma chosen_name_not_empty (name : option string) (t : Z) :
  chosen_name name t <> EmptyString.
Proof.
  unfold chosen_name, Js.or_else, Js.truthy.
  destruct name as [[| c s] |]; discriminate.
Qed.

(** A tool call leaves the registry and the table alone, or deletes one
    name, or (a capture whose host calls all went well) sets one name and
    adds its handle when the URI was free. *)
Lemma call_tool_effect (c : ToolCall) (p : Process W) :
  let p' := snd (call_tool c p) in
  (screenshots p' = screenshots p /\ server p' = server p) \/
  (exists name,
     c = DeleteScreenshot name /\
     JsMap.has name (screenshots p) = true /\
     screenshots p' = JsMap.delete name (screenshots p) /\
     server p' = server p) \/
  (exists deviceId name outputPath bytes,
     c = TakeScreenshot deviceId name outputPath /\
     existsb failed (calls_during (call_tool c) p) = false /\
     screenshots p'
     = JsMap.set (chosen_name name (Date_now (world p))) (Base64.encode bytes) (screenshots p) /\
     (is_Some (registeredResources (server p)
                 !! screenshot_uri (chosen_name name (Date_now (world p)))) /\
      server p' = server p \/
      registeredResources (server p)
        !! screenshot_uri (chosen_name name (Date_now (world p))) = None /\
      server p'
      = {| registeredResources :=
             <[screenshot_uri (chosen_name name (Date_now (world p))) :=
                 screenshot_resource (chosen_name name (Date_now (world p)))
                   (Base64.encode bytes)]>
               (registeredResources (server p)) |})).
Proof.
  destruct c as [| | deviceId name outputPath | deviceId | name].
  - left. run_handler; try (destruct (scan_lines _) as [[? ?] |]); now split.
  - left. run_handler; now split.
  - cbn [call_tool]. unfold chosen_name.
    run_take_screenshot name; try (left; now split).
    all: right; right; exists deviceId, name, outputPath, bytes;
      try rewrite !(or_else_some name _ _ Hname); try rewrite !(or_else_none name _ Hname);
      (split; [reflexivity |]); new_calls; (split; [reflexivity |]);
      (split; [reflexivity |]); rewrite Hres; eauto.
  - left. run_handler; now split.
  - run_handler. destruct (JsMap.has name (screenshots p)) eqn:Hhas; cbn [snd].
    + right; left. exists name. repeat split; auto.
    + left. now split.
Qed.

(** ** What every reachable state satisfies *)

Lemma JsMap_has_set (k v other : string) (m : JsMap.t) :
  JsMap.has other (JsMap.set k v m) = String.eqb k other || JsMap.has other m.
Proof.
  unfold JsMap.has. induction m as [| [k' v'] m IH]; cbn.
  - now rewrite orb_false_r.
  - destruct (String.eqb k' k) eqn:E; cbn.
    + apply String.eqb_eq in E. subst k'. now destruct (String.eqb k other).
    + rewrite IH. destruct (String.eqb k' other), (String.eqb k other); reflexivity.
Qed.

Lemma JsMap_has_delete_some (k other : string) (m : JsMap.t) :
  JsMap.has other (JsMap.delete k m) = true -> JsMap.has other m = true.
Proof.
  rewrite !JsMap_has_In, JsMap_keys_delete_filter, filter_In. tauto.
Qed.

Lemma well_formed_same (p p' : Process W) :
  screenshots p' = screenshots p -> server p' = server p ->
  well_formed_registry p -> well_formed_registry p'.
Proof.
  intros Hshots Hserver [H1 H2 H3 H4 H5 H6].
  split; rewrite ?Hshots, ?Hserver; assumption.
Qed.

Lemma module_init_state (w : W) (p0 : Process W) :
  module_init (blank w) = (Normal tt, p0) ->
  screenshots p0 = [] /\
  registeredResources (server p0) = <["screenshot://list" := list_resource]> ∅.
Proof.
  unfold module_init. run_handler; intros [= <-]; cbn; auto.
Qed.

Lemma module_init_well_formed (w : W) (p0 : Process W) :
  module_init (blank w) = (Normal tt, p0) -> well_formed_registry p0.
Proof.
  intros Hinit. destruct (module_init_state w p0 Hinit) as [Hshots Htable].
  split; rewrite ?Hshots, ?Htable.
  - constructor.
  - reflexivity.
  - intros n Hn. discriminate.
  - intros n d Hd. discriminate.
  - apply lookup_insert_eq.
  - intros u r Hu. left.
    destruct (decide (u = "screenshot://list")) as [-> | Hne].
    + rewrite lookup_insert_eq in Hu. now injection Hu as <-.
    + rewrite lookup_insert_ne, lookup_empty in Hu by congruence. discriminate.
Qed.

Lemma call_tool_well_formed (c : ToolCall) (p : Process W) :
  well_formed_registry p -> well_formed_registry (snd (call_tool c p)).
Proof.
  intros Hp. pose proof Hp as [Hdistinct Hempty Hhandles Hdata Hlist Hshape].
  destruct (call_tool_effect c p)
    as [[Hshots Hserver]
       | [(name & _ & _ & Hshots & Hserver)
         | (deviceId & name & outputPath & bytes & _ & _ & Hshots & Htable)]].
  - exact (well_formed_same _ _ Hshots Hserver Hp).
  - split; rewrite ?Hshots, ?Hserver.
    + now apply NoDup_keys_delete.
    + destruct (JsMap.has EmptyString (JsMap.delete name (screenshots p))) eqn:E;
        [| reflexivity].
      apply JsMap_has_delete_some in E. congruence.
    + intros n Hn. apply Hhandles. exact (JsMap_has_delete_some _ _ _ Hn).
    + intros n d Hd. apply JsMap_get_delete_some in Hd. destruct Hd as [_ Hd]. eauto.
    + exact Hlist.
    + exact Hshape.
  - set (n := chosen_name name (Date_now (world p))) in *.
    assert (n <> EmptyString) as Hn by apply chosen_name_not_empty.
    assert (forall u,
              is_Some (registeredResources (server p) !! u) ->
              is_Some (registeredResources (server (snd (call_tool c p))) !! u)) as Hkept.
    { intros u Hu. destruct Htable as [[_ ->] | [_ ->]]; [exact Hu |].
      cbn [registeredResources].
      destruct (decide (screenshot_uri n = u)) as [<- | Hne];
        [rewrite lookup_insert_eq; eauto | now rewrite lookup_insert_ne]. }
    split; rewrite ?Hshots.
    + now apply NoDup_keys_set.
    + rewrite JsMap_has_set, Hempty.
      destruct (String.eqb n EmptyString) eqn:E; [| reflexivity].
      apply String.eqb_eq in E. congruence.
    + intros m. rewrite JsMap_has_set.
      destruct (String.eqb n m) eqn:E.
      * intros _. apply String.eqb_eq in E. subst m.
        destruct Htable as [[Hsome ->] | [_ ->]]; [exact Hsome |].
        cbn [registeredResources]. rewrite lookup_insert_eq. eauto.
      * cbn [orb]. intros Hm. apply Hkept, Hhandles, Hm.
    + intros m d. destruct (String.eqb m n) eqn:E.
      * apply String.eqb_eq in E. subst m. rewrite JsMap_get_set_same.
        intros [= <-]. eauto.
      * apply String.eqb_neq in E. rewrite JsMap_get_set_other by exact E. apply Hdata.
    + destruct Htable as [[_ ->] | [Hfree ->]]; [exact Hlist |].
      cbn [registeredResources]. rewrite lookup_insert_ne; [exact Hlist |].
      intros E. rewrite E in Hfree. congruence.
    + intros u r. destruct Htable as [[_ ->] | [Hfree ->]]; [apply Hshape |].
      cbn [registeredResources].
      destruct (decide (screenshot_uri n = u)) as [<- | Hne].
      * rewrite lookup_insert_eq. intros [= <-]. right. exists n, bytes. auto.
      * rewrite lookup_insert_ne by exact Hne. apply Hshape.
Qed.

Lemma run_steps_well_formed (steps : list Step) (p : Process W) :
  well_formed_registry p -> well_formed_registry (run_steps steps p).
Proof.
  revert p. induction steps as [| s steps IH]; intros p Hp; [exact Hp |].
  cbn [run_steps fold_left]. apply IH.
  destruct s as [c | change]; [now apply call_tool_well_formed |].
  now apply (well_formed_same p).
Qed.

Lemma reachable_well_formed (p : Process W) : reachable p -> well_formed_registry p.
Proof.
  intros (w & p0 & steps & Hinit & ->).
  apply run_steps_well_formed. exact (module_init_well_formed w p0 Hinit).
Qed.

Lemma reachable_step (s : Step) (p : Process W) : reachable p -> reachable (run_step s p).
Proof.
  intros (w & p0 & steps & Hinit & ->).
  exists w, p0, (steps ++ [s]). split; [exact Hinit |].
  unfold run_steps. now rewrite fold_left_app.
Qed.

Lemma read_list (p : Process W) :
  well_formed_registry p ->
  fst (read_resource "screenshot://list" p)
  = Normal (list_contents (JsMap.keys (screenshots p))).
Proof.
  intros Hp. unfold read_resource. now rewrite (list_is_registered p Hp).
Qed.

(** ** The aggregate resource *)

(** X1: in every state the tools can reach, reading [screenshot://list]
    returns, as plain text, the names of the registry joined by newlines, in
    the order of the map, and no name occurs twice. *)
Theorem list_resource_enumerates_registry (p : Process W) :
  reachable p ->
  fst (read_resource "screenshot://list" p)
  = Normal (list_contents (JsMap.keys (screenshots p))) /\
  List.NoDup (JsMap.keys (screenshots p)).
Proof.
  intros Hp. apply reachable_well_formed in Hp.
  split; [now apply read_list | exact (names_distinct p Hp)].
Qed.

(** X2: a capture whose host calls all went well puts its name at the end
    of the names when the name is new, and leaves the names and their order
    alone when the name was there already. *)
Theorem capture_keeps_listing_order (deviceId : string) (name outputPath : option string)
    (p : Process W) :
  existsb failed (calls_during (take_screenshot deviceId name outputPath) p) = false ->
  let n := chosen_name name (Date_now (world p)) in
  JsMap.keys (screenshots (snd (take_screenshot deviceId name outputPath p)))
  = if JsMap.has n (screenshots p)
    then JsMap.keys (screenshots p)
    else JsMap.keys (screenshots p) ++ [n].
Proof.
  unfold chosen_name.
  run_take_screenshot name; new_calls; cbn; try discriminate; intros _;
    apply JsMap_keys_set.
Qed.

(** X3: after [delete_screenshot name], the list resource shows the names
    it showed before without [name], the others in the order they had. *)
Theorem delete_shortens_listing (name : string) (p : Process W) :
  reachable p ->
  fst (read_resource "screenshot://list" (snd (delete_screenshot name p)))
  = Normal (list_contents
              (List.filter (fun n => negb (String.eqb n name)) (JsMap.keys (screenshots p)))).
Proof.
  intros Hp.
  pose proof (reachable_step (Invoke (DeleteScreenshot name)) p Hp) as Hp'.
  cbn [run_step call_tool] in Hp'. apply reachable_well_formed in Hp'.
  rewrite (read_list _ Hp'). f_equal. f_equal.
  unfold delete_screenshot, try_catch.
  destruct (JsMap.has name (screenshots p)) eqn:Hhas; cbn [snd with_screenshots screenshots].
  - apply JsMap_keys_delete_filter.
  - symmetry. apply filter_absent. rewrite <- JsMap_has_In. congruence.
Qed.

(** ** The tools that only run a command *)

(** X4: [get_booted_sim_id], [get_all_simulators] and [boot_simulator] make
    one host call, the execution of their command, and never touch the
    registry or the resource table.  [get_all_simulators] answers with the
    command's output as it is, [boot_simulator] with its confirmation
    followed by the output, and both with their error text when the command
    is rejected. *)
Theorem command_tools_only_run_their_command (deviceId : string) (p : Process W) :
  only_runs get_booted_sim_id "xcrun simctl list devices" p /\
  only_runs get_all_simulators "xcrun simctl list devices" p /\
  only_runs (boot_simulator deviceId) ("xcrun simctl boot " +:+ deviceId) p /\
  fst (get_all_simulators p)
  = Normal (text_result
              match fst (execAsync "xcrun simctl list devices" (world p)) with
              | Normal stdout => stdout
              | Throw e => "Error: " +:+ error_text e
              end) /\
  fst (boot_simulator deviceId p)
  = Normal (text_result
              match fst (execAsync ("xcrun simctl boot " +:+ deviceId) (world p)) with
              | Normal stdout =>
                  "Successfully booted simulator with ID: " +:+ deviceId +:+ LF +:+ stdout
              | Throw e => "Error booting simulator: " +:+ error_text e
              end).
Proof.
  unfold only_runs, calls_during. repeat split.
  all: unfold_handlers; cbn [fst snd];
    match goal with
    | |- context [execAsync ?c ?w] => destruct (execAsync c w) as [[stdout | e] w']
    end;
    try (destruct (scan_lines _) as [[? ?] |]);
    cbn [fst snd screenshots server world trace with_world is_normal];
    rewrite ?drop_trace; reflexivity.
Qed.

(** ** Handles and names *)

(** X5: in every state the tools can reach, each name of the registry has a
    resource under [screenshot://<name>]; the table holds the list resource
    under [screenshot://list]; and every resource of the table is either
    that one or the resource [screenshot-<n>] of a non-empty name [n], under
    [screenshot://<n>], returning the base64 text of some captured bytes. *)
Theorem registered_names_have_handles (p : Process W) :
  reachable p ->
  (forall n, JsMap.has n (screenshots p) = true ->
             is_Some (registeredResources (server p) !! screenshot_uri n)) /\
  registeredResources (server p) !! "screenshot://list" = Some list_resource /\
  (forall u r,
     registeredResources (server p) !! u = Some r ->
     u = "screenshot://list" /\ r = list_resource \/
     exists n bytes,
       n <> EmptyString /\ u = "screenshot://" +:+ n /\
       r = screenshot_resource n (Base64.encode bytes)).
Proof.
  intros Hp. apply reachable_well_formed in Hp.
  split; [exact (names_have_handles p Hp) |].
  split; [exact (list_is_registered p Hp) | exact (table_shape p Hp)].
Qed.

(** X6: every tool call keeps the table in step with the registry (each
    name has, under [screenshot://<name>], the entry whose callback holds
    the registry's bytes), except a capture under a name whose URI is
    already registered; and then every read request whose URL has the href
    [screenshot://<name>] is answered with the registry's bytes. *)
Theorem handles_stay_current (c : ToolCall) (p : Process W) :
  table_current p ->
  (forall deviceId name outputPath,
     c = TakeScreenshot deviceId name outputPath ->
     registeredResources (server p)
       !! screenshot_uri (chosen_name name (Date_now (world p))) = None) ->
  let p' := snd (call_tool c p) in
  table_current p' /\
  forall name data input,
    JsMap.get name (screenshots p') = Some data ->
    URL_href input = Some (screenshot_uri name) ->
    fst (resources_read input p') = Normal (blob_contents name data).
Proof.
  intros Hp Hfree p'.
  assert (table_current p') as Hp'.
  { subst p'.
    destruct (call_tool_effect c p)
      as [[Hshots Hserver]
         | [(name & _ & _ & Hshots & Hserver)
           | (deviceId & name & outputPath & bytes & -> & _ & Hshots & Htable)]].
    - intros m d. rewrite Hshots, Hserver. apply Hp.
    - intros m d. rewrite Hshots, Hserver. intros Hm.
      apply JsMap_get_delete_some in Hm. destruct Hm as [_ Hm]. now apply Hp.
    - specialize (Hfree deviceId name outputPath eq_refl).
      set (n := chosen_name name (Date_now (world p))) in *.
      destruct Htable as [[[r Hr] _] | [_ Hserver]]; [congruence |].
      intros m d. rewrite Hshots, Hserver. cbn [registeredResources].
      destruct (String.eqb m n) eqn:E.
      + apply String.eqb_eq in E. subst m. rewrite JsMap_get_set_same.
        intros [= <-]. now rewrite lookup_insert_eq.
      + apply String.eqb_neq in E. rewrite JsMap_get_set_other by exact E.
        intros Hm. rewrite lookup_insert_ne; [now apply Hp |].
        intros Huri. apply screenshot_uri_inj in Huri. congruence. }
  split; [exact Hp' |].
  intros name data input Hget Hinput.
  now rewrite (resources_read_blob input name data p' Hinput (Hp' name data Hget)).
Qed.

(** X7: deleting a name twice: the second call answers
    [Screenshot not found: <name>] and changes nothing, whatever the first
    one did. *)
Theorem delete_screenshot_twice (name : string) (p : Process W) :
  let once := snd (delete_screenshot name p) in
  delete_screenshot name once
  = (Normal (text_result ("Screenshot not found: " +:+ name)), once).
Proof.
  cbv zeta. unfold delete_screenshot, try_catch.
  destruct (JsMap.has name (screenshots p)) eqn:Hhas;
    cbn [snd with_screenshots screenshots].
  - now rewrite JsMap_has_delete.
  - now rewrite Hhas.
Qed.

(** ** When a capture goes through *)

Lemma resolve_absolute (here path : string) :
  Path.isAbsolute path = true -> Path.resolve here path = Path.resolve EmptyString path.
Proof.
  intros Habs. unfold Path.resolve.
  destruct path as [| c path]; [discriminate |]. now rewrite Habs.
Qed.

(** X8: [take_screenshot] answers with an image exactly when none of its
    host calls failed and the URI of the name was free.  Then the answer
    names the resolved path and the resource, its image is the base64 text
    of the bytes read back from the path, the same text is in the registry
    under the name and in the callback of the new table entry, and it is
    the answer to every read request whose URL has the href
    [screenshot://<name>]. *)
Theorem capture_goes_through_exactly_when (deviceId : string)
    (name outputPath : option string) (p : Process W) :
  let n := chosen_name name (Date_now (world p)) in
  let path := Js.or_else outputPath (default_path n) in
  let r := fst (take_screenshot deviceId name outputPath p) in
  let p' := snd (take_screenshot deviceId name outputPath p) in
  let went_well :=
    existsb failed (calls_during (take_screenshot deviceId name outputPath) p) = false /\
    registeredResources (server p) !! screenshot_uri n = None in
  (went_well <-> exists r0, r = Normal r0 /\ has_image r0 = true) /\
  (went_well ->
   exists here bytes,
     (Path.isAbsolute path = false -> process_cwd (world p') = Normal here) /\
     fs_readFileSync path (world p') = Normal bytes /\
     r = Normal (capture_response (Path.resolve here path) n (Base64.encode bytes)) /\
     JsMap.get n (screenshots p') = Some (Base64.encode bytes) /\
     registeredResources (server p') !! screenshot_uri n
     = Some (screenshot_resource n (Base64.encode bytes)) /\
     forall input,
       URL_href input = Some (screenshot_uri n) ->
       fst (resources_read input p') = Normal (blob_contents n (Base64.encode bytes))).
Proof.
  cbv zeta. unfold chosen_name.
  run_take_screenshot name; new_calls; cbn [existsb failed negb orb].
  all: split;
    [ split;
      [ try (intros [Hok Hfree]; discriminate); intros _; eexists; split; reflexivity
      | try (intros (r0 & [= <-] & Himage); discriminate); intros _; split; reflexivity ]
    | try (intros [Hok Hfree]; discriminate); intros _ ].
  all: try rewrite !(or_else_some name _ _ Hname); try rewrite !(or_else_none name _ Hname).
  all: cbn [snd world with_world with_server with_screenshots screenshots server].
  all: match goal with
       | Hcwd : process_cwd _ = Normal ?h |- _ => exists h, bytes
       | _ => exists EmptyString, bytes
       end;
    (split; [first [discriminate | intros _; assumption] |]);
    (split; [exact Hread |]); (split; [reflexivity |]);
    (split; [apply JsMap_get_set_same |]);
    (split; [cbn [registeredResources]; apply lookup_insert_eq |]);
    intros input Hinput; unfold resources_read, read_resource; rewrite Hinput;
    cbn [server with_server registeredResources];
    rewrite lookup_insert_eq; reflexivity.
Qed.

(** ** A name is used once *)

(** X9: once the URI of a name is registered, no later capture under that
    name goes through.  After any sequence of tool calls, a capture under
    the name whose host calls all go well answers that the resource is
    already registered and leaves the resource table as it was; it has
    nevertheless put the base64 text of the image it read back from the
    path into the registry, under the name.  This holds for the name [list]
    from the start, and for a captured name also after its deletion. *)
Theorem name_cannot_be_reused (name : string) (p : Process W) :
  name <> EmptyString ->
  is_Some (registeredResources (server p) !! screenshot_uri name) ->
  forall steps deviceId outputPath,
    let q := run_steps steps p in
    let path := Js.or_else outputPath (default_path name) in
    let q' := snd (take_screenshot deviceId (Some name) outputPath q) in
    existsb failed (calls_during (take_screenshot deviceId (Some name) outputPath) q) = false ->
    fst (take_screenshot deviceId (Some name) outputPath q) = Normal (already_registered name) /\
    registeredResources (server q') = registeredResources (server q) /\
    exists bytes,
      fs_readFileSync path (world q') = Normal bytes /\
      screenshots q' = JsMap.set name (Base64.encode bytes) (screenshots q) /\
      JsMap.get name (screenshots q') = Some (Base64.encode bytes).
Proof.
  intros Hname [r Hr] steps deviceId outputPath q.
  pose proof (run_steps_keeps_resources steps p _ _ Hr) as Hq. fold q in Hq.
  assert (Js.truthy (Some name) = Some name) as Htruthy
    by (destruct name; [congruence | reflexivity]).
  cbv zeta.
  unfold calls_during. unfold_handlers. cbn [fst snd]. rewrite Htruthy.
  cbn [fst snd world with_world]. repeat step_host; new_calls; cbn; try discriminate.
  all: try congruence.
  all: intros _; split; [reflexivity |]; split; [reflexivity |]; exists bytes;
    split; [exact Hread |]; split; [reflexivity | apply JsMap_get_set_same].
Qed.


(** ** Loading the module *)

(** X10: loading [index.ts] tests the screenshot directory and creates it
    only when it is not there.  A failure to create it is thrown out of the
    module, uncaught.  Otherwise the load completes with an empty registry
    and one resource, the list, which reads as the empty text. *)
Theorem module_load (w : W) :
  let found := fs_existsSync SCREENSHOT_RESOURCE_DIR w in
  let made := is_normal (fst (fs_mkdirSync SCREENSHOT_RESOURCE_DIR w)) in
  let r := fst (module_init (blank w)) in
  let p0 := snd (module_init (blank w)) in
  trace p0
  = ExistsCall SCREENSHOT_RESOURCE_DIR found ::
    (if found then [] else [MkdirCall SCREENSHOT_RESOURCE_DIR made]) /\
  (forall e, found = false -> fst (fs_mkdirSync SCREENSHOT_RESOURCE_DIR w) = Throw e ->
             r = Throw e) /\
  (found || made = true ->
   r = Normal tt /\
   screenshots p0 = [] /\
   registeredResources (server p0) = <["screenshot://list" := list_resource]> ∅ /\
   fst (read_resource "screenshot://list" p0) = Normal (list_contents [])).
Proof.
  cbv zeta. unfold module_init. unfold_handlers. cbn [world blank fst snd].
  destruct (fs_existsSync SCREENSHOT_RESOURCE_DIR w) eqn:Hfound;
    cbn [fst snd world with_world trace blank app server screenshots].
  - split; [reflexivity |]. split; [discriminate |]. intros _.
    cbn [registeredResources]. rewrite lookup_empty.
    cbn [fst snd with_server with_world screenshots server blank registeredResources].
    repeat split;
      try (unfold read_resource; cbn [server registeredResources];
           now rewrite lookup_insert_eq).
  - destruct (fs_mkdirSync SCREENSHOT_RESOURCE_DIR w) as [[[] | e] w'] eqn:Hmkdir;
      cbn [fst snd world with_world trace blank app server screenshots is_normal orb].
    + split; [reflexivity |]. split; [discriminate |]. intros _.
      cbn [registeredResources]. rewrite lookup_empty.
      cbn [fst snd with_server with_world screenshots server blank registeredResources].
      repeat split;
        try (unfold read_resource; cbn [server registeredResources];
             now rewrite lookup_insert_eq).
    + split; [reflexivity |]. split; [| discriminate].
      intros e' _ [= <-]. reflexivity.
Qed.

(** ** Names and paths are never empty *)

Lemma normalize_not_empty (path : string) : Path.normalize path <> EmptyString.
Proof.
  unfold Path.normalize. destruct path as [| c path]; [discriminate |].
  cbv zeta.
  destruct (Path.normalizeString (String c path) (negb (Path.isAbsolute (String c path))))
    as [| d rest];
    destruct (Path.isAbsolute (String c path));
    destruct (Path.endsWithSlash (String c path));
    intros H; cbv [String.append] in H; discriminate.
Qed.

Lemma join_not_empty (parts : list string) : Path.join parts <> EmptyString.
Proof.
  unfold Path.join. destruct (List.filter _ parts); [discriminate |].
  apply normalize_not_empty.
Qed.

Lemma or_else_not_empty (o : option string) (d : string) :
  d <> EmptyString -> Js.or_else o d <> EmptyString.
Proof.
  intros Hd. unfold Js.or_else, Js.truthy. destruct o as [[| c s] |]; auto; discriminate.
Qed.

(** X11: neither the screenshot directory, nor the name a capture works
    with, nor the path it hands to the capture command and reads back is
    ever the empty string: an empty [name] or [outputPath], like an empty
    environment variable, counts as missing. *)
Theorem capture_names_and_paths_not_empty (name outputPath : option string) (t : Z) :
  SCREENSHOT_RESOURCE_DIR <> EmptyString /\
  chosen_name name t <> EmptyString /\
  Js.or_else outputPath (default_path (chosen_name name t)) <> EmptyString /\
  chosen_name (Some EmptyString) t = chosen_name None t /\
  Js.or_else (Some EmptyString) (default_path (chosen_name name t))
  = default_path (chosen_name name t).
Proof.
  split; [apply or_else_not_empty, join_not_empty |].
  split; [apply chosen_name_not_empty |].
  split; [apply or_else_not_empty, join_not_empty |].
  split; reflexivity.
Qed.

(** ** What the line scan reports *)

Lemma split_not_nil (sep : ascii) (s : string) : Js.split sep s <> [].
Proof.
  destruct s as [| c s]; cbn [Js.split]; [discriminate |].
  destruct (Ascii.eqb c sep); [discriminate |].
  destruct (Js.split sep s); discriminate.
Qed.

Lemma hd_in_split (sep : ascii) (s : string) :
  In (hd EmptyString (Js.split sep s)) (Js.split sep s).
Proof.
  pose proof (split_not_nil sep s) as Hne.
  destruct (Js.split sep s); [congruence | now left].
Qed.

Lemma split_head_prefix (sep : ascii) (s : string) :
  exists rest, s = hd EmptyString (Js.split sep s) +:+ rest.
Proof.
  induction s as [| c s (rest & IH)]; [exists EmptyString; reflexivity |].
  cbn [Js.split]. destruct (Ascii.eqb c sep).
  - exists (String c s). reflexivity.
  - pose proof (split_not_nil sep s) as Hne.
    destruct (Js.split sep s) as [| h t]; [congruence |].
    exists rest. cbn [hd] in *. rewrite (append_cons c h rest). now f_equal.
Qed.

(** Each part of a split is a piece of the string. *)
Lemma split_part_substring (sep : ascii) (s part : string) :
  In part (Js.split sep s) -> exists before after, s = before +:+ part +:+ after.
Proof.
  revert part. induction s as [| c s IH]; intros part.
  - intros [<- | []]. exists EmptyString, EmptyString. reflexivity.
  - destruct (split_head_prefix sep (String c s)) as (rest & Hhead).
    cbn [Js.split] in *. destruct (Ascii.eqb c sep).
    + intros [<- | Hin].
      * exists EmptyString, (String c s). reflexivity.
      * destruct (IH part Hin) as (before & after & ->).
        exists (String c before), after. reflexivity.
    + pose proof (split_not_nil sep s) as Hne.
      destruct (Js.split sep s) as [| h t]; [congruence |].
      intros [<- | Hin].
      * exists EmptyString, rest. exact Hhead.
      * destruct (IH part (or_intror Hin)) as (before & after & ->).
        exists (String c before), after. reflexivity.
Qed.

Lemma append_assoc (a b c : string) : (a +:+ b) +:+ c = a +:+ (b +:+ c).
Proof.
  induction a as [| x a IH]; [reflexivity |].
  rewrite (append_cons x a b), (append_cons x (a +:+ b) c), (append_cons x a (b +:+ c)).
  now f_equal.
Qed.

Lemma includes_part (sep : ascii) (needle s part : string) :
  In part (Js.split sep s) -> Js.includes needle part = true -> Js.includes needle s = true.
Proof.
  intros Hin Hpart.
  destruct (split_part_substring sep s part Hin) as (before & after & ->).
  apply includes_substring in Hpart. destruct Hpart as (a & b & ->).
  apply includes_substring. exists (before +:+ a), (b +:+ after).
  now rewrite !append_assoc.
Qed.

Lemma scan_lines_none (lines : list string) :
  scan_lines lines = None -> Forall skipped lines.
Proof.
  induction lines as [| line lines IH]; cbn [scan_lines]; [constructor |].
  destruct (Js.includes "Booted" line) eqn:Hbooted.
  - destruct (UuidRegex.exec line) eqn:Hexec; [discriminate |].
    intros H. constructor; [now right | auto].
  - intros H. constructor; [now left | auto].
Qed.

Lemma scan_lines_some (lines : list string) (name id : string) :
  scan_lines lines = Some (name, id) ->
  exists before line after,
    lines = before ++ line :: after /\
    Forall skipped before /\
    Js.includes "Booted" line = true /\
    UuidRegex.exec line = Some id /\
    name = Js.trim (hd EmptyString (Js.split "(" line)).
Proof.
  induction lines as [| line lines IH]; cbn [scan_lines]; [discriminate |].
  destruct (Js.includes "Booted" line) eqn:Hbooted.
  - destruct (UuidRegex.exec line) as [id' |] eqn:Hexec.
    + intros [= <- <-]. exists [], line, lines. repeat split; auto.
    + intros H. destruct (IH H) as (before & l & after & -> & Hskip & Hrest).
      exists (line :: before), l, after. split; [reflexivity |].
      split; [constructor; [now right | exact Hskip] | exact Hrest].
  - intros H. destruct (IH H) as (before & l & after & -> & Hskip & Hrest).
    exists (line :: before), l, after. split; [reflexivity |].
    split; [constructor; [now left | exact Hskip] | exact Hrest].
Qed.

(** *** [trim] *)

Lemma trimStart_suffix (s : string) : exists spaces, s = spaces +:+ Js.trimStart s.
Proof.
  induction s as [| c s (spaces & IH)]; [exists EmptyString; reflexivity |].
  cbn [Js.trimStart]. destruct (Js.isWhiteSpace c).
  - exists (String c spaces). rewrite (append_cons c spaces). now f_equal.
  - exists EmptyString. reflexivity.
Qed.

Lemma trimEnd_prefix (s : string) : exists spaces, s = Js.trimEnd s +:+ spaces.
Proof.
  induction s as [| c s (spaces & IH)]; [exists EmptyString; reflexivity |].
  cbn [Js.trimEnd]. destruct (Js.trimEnd s) as [| d rest].
  - destruct (Js.isWhiteSpace c).
    + exists (String c s). reflexivity.
    + exists s. reflexivity.
  - exists spaces. rewrite (append_cons c (String d rest) spaces). now f_equal.
Qed.

Lemma includes_trim (needle s : string) :
  Js.includes needle (Js.trim s) = true -> Js.includes needle s = true.
Proof.
  unfold Js.trim. intros H. apply includes_substring in H. destruct H as (a & b & Hs).
  destruct (trimStart_suffix s) as (front & Hfront).
  destruct (trimEnd_prefix (Js.trimStart s)) as (back & Hback).
  apply includes_substring. exists (front +:+ a), (b +:+ back).
  rewrite Hfront at 1. rewrite Hback at 1. rewrite Hs at 1.
  now rewrite !append_assoc.
Qed.

Lemma trimStart_first (s : string) : is_space (first_char (Js.trimStart s)) = false.
Proof.
  induction s as [| c s IH]; [reflexivity |].
  cbn [Js.trimStart]. destruct (Js.isWhiteSpace c) eqn:Hc; [exact IH | exact Hc].
Qed.

Lemma trimEnd_first (s : string) :
  is_space (first_char s) = false -> is_space (first_char (Js.trimEnd s)) = false.
Proof.
  destruct s as [| c s]; [auto |]. cbn [Js.trimEnd first_char is_space]. intros Hc.
  destruct (Js.trimEnd s); [rewrite Hc; exact Hc | exact Hc].
Qed.

Lemma trimEnd_last (s : string) : is_space (last_char (Js.trimEnd s)) = false.
Proof.
  induction s as [| c s IH]; [reflexivity |].
  cbn [Js.trimEnd]. destruct (Js.trimEnd s) as [| d rest].
  - destruct (Js.isWhiteSpace c) eqn:Hc; [reflexivity | exact Hc].
  - exact IH.
Qed.

(** X12: the loop of [get_booted_sim_id] reports nothing exactly when every
    line lacks the marker or an id group.  When it reports a device, some
    line with [Booted] and with an id group comes after lines that are all
    passed over; the id is the content of that line's first id group, so it
    is not empty and made of the characters [-0-9A-F]; the name is the
    trimmed text before the line's first parenthesis, so it contains no
    parenthesis and neither starts nor ends with white space. *)
Theorem scan_lines_report (lines : list string) :
  (scan_lines lines = None <-> Forall skipped lines) /\
  (forall name id,
     scan_lines lines = Some (name, id) ->
     (exists before line after,
        lines = before ++ line :: after /\
        Forall skipped before /\
        Js.includes "Booted" line = true /\
        leftmost_uuid_group line id /\
        name = Js.trim (hd EmptyString (Js.split "(" line))) /\
     id <> EmptyString /\
     UuidRegex.all_in_class id = true /\
     Js.includes "(" name = false /\
     is_space (first_char name) = false /\
     is_space (last_char name) = false).
Proof.
  split; [split; [apply scan_lines_none | apply scan_lines_skipped] |].
  intros name id Hscan.
  destruct (scan_lines_some lines name id Hscan)
    as (before & line & after & Hlines & Hskip & Hbooted & Hexec & Hname).
  apply exec_leftmost in Hexec.
  pose proof Hexec as (pre & rest & (_ & Hne & Hclass) & _).
  split; [exists before, line, after; auto |].
  split; [exact Hne |]. split; [exact Hclass |].
  subst name. split; [| split].
  - destruct (Js.includes "(" (Js.trim _)) eqn:E; [| reflexivity].
    apply includes_trim in E.
    rewrite (split_parts "(" line _ (hd_in_split "(" line)) in E. discriminate.
  - apply trimEnd_first, trimStart_first.
  - apply trimEnd_last.
Qed.

(** X13: the expression [/\(([-0-9A-F]+)\)/] matches a line exactly when the
    line has a parenthesis group made of one or more characters of
    [-0-9A-F], and capture group 1 is then the content of the first such
    group: no such group starts further left. *)
Theorem uuid_regex_finds_leftmost_group (line : string) :
  (forall id, UuidRegex.exec line = Some id <-> leftmost_uuid_group line id) /\
  (UuidRegex.exec line = None <->
   forall pre id rest, ~ uuid_group_at line pre id rest).
Proof.
  split; [intros id; apply exec_leftmost |].
  split.
  - intros Hnone pre. revert line Hnone.
    induction pre as [| c pre IH]; intros line Hnone id rest Hgroup.
    + assert (UuidRegex.match_here line = Some id) as E
        by (apply match_here_group; eauto).
      destruct line; cbn [UuidRegex.exec] in Hnone; rewrite E in Hnone; discriminate.
    + destruct Hgroup as (-> & Hne & Hclass). rewrite (append_cons c pre) in Hnone.
      cbn [UuidRegex.exec] in Hnone.
      destruct (UuidRegex.match_here _); [discriminate |].
      apply (IH _ Hnone id rest). split; auto.
  - intros Hno. destruct (UuidRegex.exec line) as [id |] eqn:E; [| reflexivity].
    apply exec_leftmost in E. destruct E as (pre & rest & Hgroup & _).
    exfalso. exact (Hno pre id rest Hgroup).
Qed.

(** ** The base64 text of the image *)

Local Abbreviation all_bytes :=
  (flat_map (fun n => match Byte.of_N (N.of_nat n) with Some b => [b] | None => [] end)
     (seq 0 256)).

Local Abbreviation sextets := (List.map N.of_nat (seq 0 64)).

Lemma byte_listed (b : byte) : In b all_bytes.
Proof.
  apply in_flat_map. exists (N.to_nat (Byte.to_N b)). split.
  - apply in_seq. pose proof (Byte.to_N_bounded b). lia.
  - rewrite N2Nat.id, Byte.of_to_N. now left.
Qed.

Lemma sextet_listed (n : N) : (n < 64)%N -> In n sextets.
Proof.
  intros Hn. apply in_map_iff. exists (N.to_nat n). split; [apply N2Nat.id |].
  apply in_seq. lia.
Qed.

(** A property of two bytes that a computation confirms for all pairs. *)
Lemma for_all_byte_pairs (check : byte -> byte -> bool) :
  forallb (fun a => forallb (check a) all_bytes) all_bytes = true ->
  forall a b, check a b = true.
Proof.
  intros Hall a b.
  rewrite forallb_forall in Hall. specialize (Hall a (byte_listed a)).
  rewrite forallb_forall in Hall. exact (Hall b (byte_listed b)).
Qed.

Lemma digit_inj (m n : N) :
  (m < 64)%N -> (n < 64)%N -> Base64.digit m = Base64.digit n -> m = n.
Proof.
  intros Hm Hn Heq.
  assert (forallb (fun a => forallb (fun b =>
            implb (Ascii.eqb (Base64.digit a) (Base64.digit b)) (N.eqb a b)) sextets) sextets
          = true) as Hall by (vm_compute; reflexivity).
  rewrite forallb_forall in Hall. specialize (Hall m (sextet_listed m Hm)).
  rewrite forallb_forall in Hall. specialize (Hall n (sextet_listed n Hn)).
  rewrite Heq, Ascii.eqb_refl in Hall. now apply N.eqb_eq.
Qed.

Lemma digit_not_padding (n : N) : (n < 64)%N -> Base64.digit n <> "="%char.
Proof.
  intros Hn Heq.
  assert (forallb (fun a => negb (Ascii.eqb (Base64.digit a) "=")) sextets = true) as Hall
    by (vm_compute; reflexivity).
  rewrite forallb_forall in Hall. specialize (Hall n (sextet_listed n Hn)).
  rewrite Heq, Ascii.eqb_refl in Hall. discriminate.
Qed.

(** The four sextets of a group of three bytes, as [Base64.encode] forms
    them. *)
Local Abbreviation s1 a := (N.shiftr (Byte.to_N a) 2).
Local Abbreviation s2_low a := (N.land (N.shiftl (Byte.to_N a) 4) 63).
Local Abbreviation s2 a b := (N.lor (s2_low a) (N.shiftr (Byte.to_N b) 4)).
Local Abbreviation s3_low b := (N.land (N.shiftl (Byte.to_N b) 2) 63).
Local Abbreviation s3 b c := (N.lor (s3_low b) (N.shiftr (Byte.to_N c) 6)).
Local Abbreviation s4 c := (N.land (Byte.to_N c) 63).

Lemma sextets_bounded (a b : byte) :
  (s1 a < 64 /\ s2_low a < 64 /\ s2 a b < 64 /\ s3_low a < 64 /\ s3 a b < 64 /\ s4 a < 64)%N.
Proof.
  pose proof (for_all_byte_pairs
    (fun a b => (s1 a <? 64) && (s2_low a <? 64) && (s2 a b <? 64) && (s3_low a <? 64)
                && (s3 a b <? 64) && (s4 a <? 64))%N
    ltac:(vm_compute; reflexivity) a b) as H.
  cbv beta in H. rewrite !andb_true_iff, !N.ltb_lt in H. tauto.
Qed.

(** The sextets give the bytes back. *)
Lemma first_byte_determined (a a' : byte) :
  s1 a = s1 a' -> N.land (s2_low a) 48 = N.land (s2_low a') 48 -> a = a'.
Proof.
  intros H1 H2.
  pose proof (for_all_byte_pairs
    (fun a a' => implb ((s1 a =? s1 a') && (N.land (s2_low a) 48 =? N.land (s2_low a') 48))%N
                   (Byte.eqb a a'))
    ltac:(vm_compute; reflexivity) a a') as H.
  cbv beta in H. rewrite H1, H2, !N.eqb_refl in H. now apply Byte.byte_dec_bl.
Qed.

Lemma second_byte_determined (b b' : byte) :
  N.shiftr (Byte.to_N b) 4 = N.shiftr (Byte.to_N b') 4 ->
  N.land (s3_low b) 60 = N.land (s3_low b') 60 -> b = b'.
Proof.
  intros H1 H2.
  pose proof (for_all_byte_pairs
    (fun b b' => implb ((N.shiftr (Byte.to_N b) 4 =? N.shiftr (Byte.to_N b') 4)
                        && (N.land (s3_low b) 60 =? N.land (s3_low b') 60))%N
                   (Byte.eqb b b'))
    ltac:(vm_compute; reflexivity) b b') as H.
  cbv beta in H. rewrite H1, H2, !N.eqb_refl in H. now apply Byte.byte_dec_bl.
Qed.

Lemma third_byte_determined (c c' : byte) :
  N.shiftr (Byte.to_N c) 6 = N.shiftr (Byte.to_N c') 6 -> s4 c = s4 c' -> c = c'.
Proof.
  intros H1 H2.
  pose proof (for_all_byte_pairs
    (fun c c' => implb ((N.shiftr (Byte.to_N c) 6 =? N.shiftr (Byte.to_N c') 6)
                        && (s4 c =? s4 c'))%N
                   (Byte.eqb c c'))
    ltac:(vm_compute; reflexivity) c c') as H.
  cbv beta in H. rewrite H1, H2, !N.eqb_refl in H. now apply Byte.byte_dec_bl.
Qed.

(** The two halves of a mixed sextet can be read off it. *)
Lemma second_sextet_halves (a b : byte) :
  N.land (s2 a b) 48 = N.land (s2_low a) 48 /\
  N.land (s2 a b) 15 = N.shiftr (Byte.to_N b) 4 /\
  N.land (s2_low a) 15 = 0%N.
Proof.
  pose proof (for_all_byte_pairs
    (fun a b => (N.land (s2 a b) 48 =? N.land (s2_low a) 48)
                && (N.land (s2 a b) 15 =? N.shiftr (Byte.to_N b) 4)
                && (N.land (s2_low a) 15 =? 0))%N
    ltac:(vm_compute; reflexivity) a b) as H.
  cbv beta in H. rewrite !andb_true_iff, !N.eqb_eq in H. tauto.
Qed.

Lemma third_sextet_halves (b c : byte) :
  N.land (s3 b c) 60 = N.land (s3_low b) 60 /\
  N.land (s3 b c) 3 = N.shiftr (Byte.to_N c) 6 /\
  N.land (s3_low b) 3 = 0%N.
Proof.
  pose proof (for_all_byte_pairs
    (fun b c => (N.land (s3 b c) 60 =? N.land (s3_low b) 60)
                && (N.land (s3 b c) 3 =? N.shiftr (Byte.to_N c) 6)
                && (N.land (s3_low b) 3 =? 0))%N
    ltac:(vm_compute; reflexivity) b c) as H.
  cbv beta in H. rewrite !andb_true_iff, !N.eqb_eq in H. tauto.
Qed.

Lemma three_step_ind (P : list byte -> Prop) :
  P [] -> (forall a, P [a]) -> (forall a b, P [a; b]) ->
  (forall a b c rest, P rest -> P (a :: b :: c :: rest)) ->
  forall l, P l.
Proof.
  intros H0 H1 H2 H3 l.
  enough (P l /\ (forall a, P (a :: l)) /\ (forall a b, P (a :: b :: l))) by tauto.
  induction l as [| x l (IH0 & IH1 & IH2)]; [auto |].
  split; [apply IH1 |]. split; [intros a; apply IH2 |]. intros a b. apply H3, IH0.
Qed.

Lemma encode_length (bytes : list byte) :
  String.length (Base64.encode bytes) = 4 * ((length bytes + 2) / 3).
Proof.
  pattern bytes. apply three_step_ind; try reflexivity.
  intros a b c rest IH.
  cbn [Base64.encode String.length length]. rewrite IH.
  replace (S (S (S (length rest))) + 2) with (length rest + 2 + 1 * 3) by lia.
  rewrite Nat.div_add by lia. lia.
Qed.

Ltac sextet_bounds a b :=
  let H := fresh "Hbound" in
  pose proof (sextets_bounded a b) as H; cbv beta in H; decompose [and] H; clear H.

Ltac digits_apart :=
  match goal with
  | H : Base64.digit ?n = "="%char |- _ =>
      exfalso; apply (digit_not_padding n); [assumption | exact H]
  | H : "="%char = Base64.digit ?n |- _ =>
      exfalso; apply (digit_not_padding n); [assumption | symmetry; exact H]
  end.

Ltac same_sextets :=
  repeat match goal with
  | H : Base64.digit ?m = Base64.digit ?n |- _ =>
      apply digit_inj in H; [| assumption | assumption]
  end.

Lemma encode_inj (l1 l2 : list byte) :
  Base64.encode l1 = Base64.encode l2 -> l1 = l2.
Proof.
  revert l2. pattern l1.
  apply three_step_ind; [| intros a | intros a b | intros a b c rest IH];
    intros [| a' [| b' [| c' rest']]]; cbn [Base64.encode];
    try reflexivity; try discriminate; intros Heq; injection Heq; clear Heq; intros.
  all: try sextet_bounds a a; try sextet_bounds a' a'.
  all: try sextet_bounds b b; try sextet_bounds b' b'.
  all: try sextet_bounds c c; try sextet_bounds c' c'.
  all: try sextet_bounds a b; try sextet_bounds a' b'.
  all: try sextet_bounds b c; try sextet_bounds b' c'.
  all: try digits_apart.
  all: same_sextets.
  - f_equal. apply first_byte_determined; congruence.
  - pose proof (second_sextet_halves a b) as (E1 & E2 & _).
    pose proof (second_sextet_halves a' b') as (E1' & E2' & _).
    assert (a = a') by (apply first_byte_determined; congruence).
    assert (b = b') by (apply second_byte_determined; congruence).
    congruence.
  - pose proof (second_sextet_halves a b) as (E1 & E2 & _).
    pose proof (second_sextet_halves a' b') as (E1' & E2' & _).
    pose proof (third_sextet_halves b c) as (E3 & E4 & _).
    pose proof (third_sextet_halves b' c') as (E3' & E4' & _).
    assert (a = a') by (apply first_byte_determined; congruence).
    assert (b = b') by (apply second_byte_determined; congruence).
    assert (c = c') by (apply third_byte_determined; congruence).
    assert (rest = rest') by (apply IH; assumption).
    congruence.
Qed.

(** X15: the base64 text of the image bytes is four characters for every
    three bytes, the last group padded, and different bytes give different
    texts: what the registry and the response carry determines the file that
    was read. *)
Theorem base64_text_is_faithful :
  (forall bytes, String.length (Base64.encode bytes) = 4 * ((length bytes + 2) / 3)) /\
  (forall bytes bytes', Base64.encode bytes = Base64.encode bytes' -> bytes = bytes').
Proof. split; [apply encode_length | apply encode_inj]. Qed.

(** ** The answers of [get_booted_sim_id] *)

(** X14: [get_booted_sim_id] answers [Error: ...] when the listing command
    is rejected.  A listing in which the word [Booted] does not occur gives
    [No booted simulator found.], and that answer is given exactly when the
    command succeeded and each line of its output lacks the marker or an id
    group. *)
Theorem get_booted_sim_id_answers (p : Process W) :
  (forall e w', execAsync "xcrun simctl list devices" (world p) = (Throw e, w') ->
     fst (get_booted_sim_id p) = Normal (text_result ("Error: " +:+ error_text e))) /\
  (forall stdout w', execAsync "xcrun simctl list devices" (world p) = (Normal stdout, w') ->
     Js.includes "Booted" stdout = false ->
     fst (get_booted_sim_id p) = Normal (text_result "No booted simulator found.")) /\
  (fst (get_booted_sim_id p) = Normal (text_result "No booted simulator found.") <->
   exists stdout w',
     execAsync "xcrun simctl list devices" (world p) = (Normal stdout, w') /\
     Forall skipped (Js.split "010" stdout)).
Proof.
  split; [| split].
  - intros e w' Hexec. unfold_handlers. now rewrite Hexec.
  - intros stdout w' Hexec Hnone. unfold_handlers. rewrite Hexec. cbn [fst snd].
    rewrite scan_lines_skipped; [reflexivity |].
    apply List.Forall_forall. intros line Hline. left.
    destruct (Js.includes "Booted" line) eqn:E; [| reflexivity].
    rewrite (includes_part "010" "Booted" stdout line Hline E) in Hnone. discriminate.
  - unfold_handlers.
    destruct (execAsync "xcrun simctl list devices" (world p)) as [[stdout | e] w'] eqn:Hexec;
      cbn [fst snd].
    + destruct (scan_lines (Js.split "010" stdout)) as [[name id] |] eqn:Hscan; cbn [fst].
      * split; [discriminate |].
        intros (stdout' & w'' & [= <- <-] & Hskipped).
        rewrite (scan_lines_skipped _ Hskipped) in Hscan. discriminate.
      * split; [| reflexivity]. intros _. exists stdout, w'.
        split; [reflexivity | now apply scan_lines_none].
    + split; [discriminate | intros (stdout & w'' & Hfalse & _); discriminate].
Qed.

(** ** What no tool call does *)

(** X16: no tool call removes or replaces a resource of the table, and none
    changes what the registry holds for a name other than the one it is
    about (the name deleted, or the name the capture works with). *)
Theorem tool_calls_leave_the_rest (c : ToolCall) (p : Process W) :
  let p' := snd (call_tool c p) in
  (forall u r, registeredResources (server p) !! u = Some r ->
               registeredResources (server p') !! u = Some r) /\
  (forall m,
     (forall n, c = DeleteScreenshot n -> m <> n) ->
     (forall deviceId name outputPath,
        c = TakeScreenshot deviceId name outputPath ->
        m <> chosen_name name (Date_now (world p))) ->
     JsMap.get m (screenshots p') = JsMap.get m (screenshots p)).
Proof.
  cbv zeta. split; [intros u r; apply call_tool_keeps_resources |].
  intros m Hdelete Hcapture.
  destruct (call_tool_effect c p)
    as [[-> _]
       | [(name & -> & _ & -> & _)
         | (deviceId & name & outputPath & bytes & -> & _ & -> & _)]].
  - reflexivity.
  - apply JsMap_get_delete_other. now apply Hdelete.
  - apply JsMap_get_set_other. now apply (Hcapture deviceId name outputPath).
Qed.

End Beyond.

(** * The further properties on the concrete machine *)

Section BeyondOnTheMac.

Import Sim.

Local Existing Instance dev_host.
Local Existing Instance dev_url.

Lemma reachable_after (steps : list Step) : reachable (run_steps steps (loaded mac)).
Proof. exists mac, (loaded mac), steps. split; [exact loaded_mac | reflexivity]. Qed.

(** After the two captures under [home], the list reads [home]. *)
Lemma list_resource_enumerates_registry_witness :
  reachable (run_steps capture_twice (loaded mac)) /\
  fst (read_resource "screenshot://list" (run_steps capture_twice (loaded mac)))
  = Normal (list_contents ["home"]).
Proof.
  split; [apply reachable_after |].
  exact (proj1 (list_resource_enumerates_registry _ (reachable_after capture_twice))).
Defined.

(** A first capture under [home] on the loaded server. *)
Lemma capture_keeps_listing_order_witness :
  existsb failed (calls_during (take_screenshot "DEV" (Some "home") None) (loaded mac)) = false /\
  JsMap.keys (screenshots (snd (take_screenshot "DEV" (Some "home") None (loaded mac))))
  = ["home"].
Proof.
  assert (existsb failed
            (calls_during (take_screenshot "DEV" (Some "home") None) (loaded mac)) = false)
    as Hok by (vm_compute; reflexivity).
  split; [exact Hok |].
  exact (capture_keeps_listing_order "DEV" (Some "home") None (loaded mac) Hok).
Defined.

(** Deleting [home] after the two captures empties the list. *)
Lemma delete_shortens_listing_witness :
  reachable (run_steps capture_twice (loaded mac)) /\
  fst (read_resource "screenshot://list"
         (snd (delete_screenshot "home" (run_steps capture_twice (loaded mac)))))
  = Normal (list_contents []).
Proof.
  split; [apply reachable_after |].
  exact (delete_shortens_listing "home" _ (reachable_after capture_twice)).
Defined.

(** [home] has its handle after the two captures. *)
Lemma registered_names_have_handles_witness :
  reachable (run_steps capture_twice (loaded mac)) /\
  JsMap.has "home" (screenshots (run_steps capture_twice (loaded mac))) = true /\
  is_Some (registeredResources (server (run_steps capture_twice (loaded mac)))
             !! screenshot_uri "home").
Proof.
  split; [apply reachable_after |].
  assert (JsMap.has "home" (screenshots (run_steps capture_twice (loaded mac))) = true)
    as Hhas by (vm_compute; reflexivity).
  split; [exact Hhas |].
  exact (proj1 (registered_names_have_handles _ (reachable_after capture_twice)) "home" Hhas).
Defined.

(** The first capture under [home] keeps the table in step, and
    [screenshot://home] then reads as the capture. *)
Lemma handles_stay_current_witness :
  table_current (loaded mac) /\
  registeredResources (server (loaded mac))
    !! screenshot_uri (chosen_name (Some "home") (Date_now (world (loaded mac)))) = None /\
  let p' := snd (call_tool (TakeScreenshot "DEV" (Some "home") None) (loaded mac)) in
  JsMap.get "home" (screenshots p') = Some "TWFu" /\
  URL_href "screenshot://home" = Some (screenshot_uri "home") /\
  table_current p' /\
  fst (resources_read "screenshot://home" p') = Normal (blob_contents "home" "TWFu").
Proof.
  assert (table_current (loaded mac)) as Hcurrent
    by (intros name data Hget; vm_compute in Hget; discriminate).
  assert (registeredResources (server (loaded mac))
            !! screenshot_uri (chosen_name (Some "home") (Date_now (world (loaded mac)))) = None)
    as Hfree by (vm_compute; reflexivity).
  assert (JsMap.get "home"
            (screenshots (snd (call_tool (TakeScreenshot "DEV" (Some "home") None)
                                 (loaded mac)))) = Some "TWFu")
    as Hget by (vm_compute; reflexivity).
  assert (URL_href "screenshot://home" = Some (screenshot_uri "home")) as Hhome
    by (vm_compute; reflexivity).
  split; [exact Hcurrent |]. split; [exact Hfree |].
  cbv zeta. split; [exact Hget |]. split; [exact Hhome |].
  destruct (handles_stay_current (TakeScreenshot "DEV" (Some "home") None) (loaded mac) Hcurrent)
    as [Hstep Hread].
  { intros deviceId name outputPath [= _ <- _]. exact Hfree. }
  split; [exact Hstep |].
  exact (Hread "home" "TWFu" "screenshot://home" Hget Hhome).
Defined.

(** The first capture under [home] goes through, and [screenshot://home]
    then reads as its image. *)
Lemma capture_goes_through_exactly_when_witness :
  existsb failed (calls_during (take_screenshot "DEV" (Some "home") None) (loaded mac)) = false /\
  registeredResources (server (loaded mac)) !! screenshot_uri "home" = None /\
  (exists r0,
     fst (take_screenshot "DEV" (Some "home") None (loaded mac)) = Normal r0 /\
     has_image r0 = true) /\
  exists bytes,
    fs_readFileSync (shots_dir +:+ "/home.png")
      (world (snd (take_screenshot "DEV" (Some "home") None (loaded mac)))) = Normal bytes /\
    fst (resources_read "screenshot://home"
           (snd (take_screenshot "DEV" (Some "home") None (loaded mac))))
    = Normal (blob_contents "home" (Base64.encode bytes)).
Proof.
  assert (existsb failed
            (calls_during (take_screenshot "DEV" (Some "home") None) (loaded mac)) = false)
    as Hok by (vm_compute; reflexivity).
  assert (registeredResources (server (loaded mac)) !! screenshot_uri "home" = None)
    as Hfree by (vm_compute; reflexivity).
  split; [exact Hok |]. split; [exact Hfree |].
  destruct (capture_goes_through_exactly_when "DEV" (Some "home") None (loaded mac))
    as [Hiff Hthen].
  split; [exact (proj1 Hiff (conj Hok Hfree)) |].
  destruct (Hthen (conj Hok Hfree)) as (here & bytes & _ & Hread & _ & _ & _ & Hrequest).
  exists bytes. split; [exact Hread |].
  apply Hrequest. vm_compute. reflexivity.
Defined.

(** The name [list] is taken from the start: a capture under it is
    refused, and yet its image is in the registry afterwards. *)
Lemma name_cannot_be_reused_witness :
  "list" <> EmptyString /\
  is_Some (registeredResources (server (loaded mac)) !! screenshot_uri "list") /\
  existsb failed (calls_during (take_screenshot "DEV" (Some "list") None) (loaded mac)) = false /\
  fst (take_screenshot "DEV" (Some "list") None (loaded mac))
  = Normal (already_registered "list") /\
  exists bytes,
    fs_readFileSync (default_path "list")
      (world (snd (take_screenshot "DEV" (Some "list") None (loaded mac)))) = Normal bytes /\
    JsMap.get "list" (screenshots (snd (take_screenshot "DEV" (Some "list") None (loaded mac))))
    = Some (Base64.encode bytes).
Proof.
  assert (is_Some (registeredResources (server (loaded mac)) !! screenshot_uri "list"))
    as Htaken by (vm_compute; eauto).
  assert (existsb failed
            (calls_during (take_screenshot "DEV" (Some "list") None) (loaded mac)) = false)
    as Hok by (vm_compute; reflexivity).
  split; [discriminate |]. split; [exact Htaken |]. split; [exact Hok |].
  destruct (name_cannot_be_reused "list" (loaded mac) ltac:(discriminate) Htaken
              [] "DEV" None Hok) as (Hanswer & _ & bytes & Hread & _ & Hget).
  split; [exact Hanswer |].
  exists bytes. split; [exact Hread | exact Hget].
Defined.

(** Loading on the mac creates the directory; on the locked machine the
    error of [mkdirSync] comes out of the module. *)
Lemma module_load_witness :
  (fs_existsSync SCREENSHOT_RESOURCE_DIR mac
   || is_normal (fst (fs_mkdirSync SCREENSHOT_RESOURCE_DIR mac)) = true /\
   fst (module_init (blank mac)) = Normal tt /\
   screenshots (snd (module_init (blank mac))) = []) /\
  (fs_existsSync SCREENSHOT_RESOURCE_DIR locked = false /\
   exists e,
     fst (fs_mkdirSync SCREENSHOT_RESOURCE_DIR locked) = Throw e /\
     fst (module_init (blank locked)) = Throw e).
Proof.
  split.
  - assert (fs_existsSync SCREENSHOT_RESOURCE_DIR mac
            || is_normal (fst (fs_mkdirSync SCREENSHOT_RESOURCE_DIR mac)) = true) as Hok
      by (vm_compute; reflexivity).
    split; [exact Hok |].
    destruct (module_load mac) as (_ & _ & Hloaded).
    destruct (Hloaded Hok) as (Hr & Hshots & _). split; [exact Hr | exact Hshots].
  - assert (fs_existsSync SCREENSHOT_RESOURCE_DIR locked = false) as Habsent
      by (vm_compute; reflexivity).
    split; [exact Habsent |].
    eexists. split; [vm_compute; reflexivity |].
    destruct (module_load locked) as (_ & Hthrown & _).
    apply Hthrown; [exact Habsent | vm_compute; reflexivity].
Defined.

(** The scan of the mac's listing reports the iPhone 15. *)
Lemma scan_lines_report_witness :
  scan_lines (Js.split "010" listing) = Some ("iPhone 15", "ABCD-1234-EF") /\
  Js.includes "(" "iPhone 15" = false /\
  UuidRegex.all_in_class "ABCD-1234-EF" = true.
Proof.
  assert (scan_lines (Js.split "010" listing) = Some ("iPhone 15", "ABCD-1234-EF")) as Hscan
    by (vm_compute; reflexivity).
  split; [exact Hscan |].
  destruct (proj2 (scan_lines_report (Js.split "010" listing)) _ _ Hscan)
    as (_ & _ & Hclass & Hparen & _).
  split; [exact Hparen | exact Hclass].
Defined.

(** The match on the line of the iPhone SE is its second group. *)
Lemma uuid_regex_finds_leftmost_group_witness :
  UuidRegex.exec "iPhone SE (3rd generation) (AAAA-11) (Booted)" = Some "AAAA-11" /\
  leftmost_uuid_group "iPhone SE (3rd generation) (AAAA-11) (Booted)" "AAAA-11".
Proof.
  assert (UuidRegex.exec "iPhone SE (3rd generation) (AAAA-11) (Booted)" = Some "AAAA-11")
    as Hexec by (vm_compute; reflexivity).
  split; [exact Hexec |].
  exact (proj1 (proj1 (uuid_regex_finds_leftmost_group _) "AAAA-11") Hexec).
Defined.

(** A listing without the marker, and a machine without [xcrun]. *)
Lemma get_booted_sim_id_answers_witness :
  (execAsync "xcrun simctl list devices" (world (loaded (mac_listing "== Devices ==")))
   = (Normal "== Devices ==", world (loaded (mac_listing "== Devices =="))) /\
   Js.includes "Booted" "== Devices ==" = false /\
   fst (get_booted_sim_id (loaded (mac_listing "== Devices ==")))
   = Normal (text_result "No booted simulator found.")) /\
  exists e,
    execAsync "xcrun simctl list devices" (world (loaded bare))
    = (Throw e, world (loaded bare)) /\
    fst (get_booted_sim_id (loaded bare)) = Normal (text_result ("Error: " +:+ error_text e)).
Proof.
  split.
  - assert (execAsync "xcrun simctl list devices"
              (world (loaded (mac_listing "== Devices ==")))
            = (Normal "== Devices ==", world (loaded (mac_listing "== Devices ==")))) as Hexec
      by (vm_compute; reflexivity).
    split; [exact Hexec |]. split; [vm_compute; reflexivity |].
    destruct (get_booted_sim_id_answers (loaded (mac_listing "== Devices =="))) as (_ & Hnone & _).
    apply (Hnone _ _ Hexec). vm_compute. reflexivity.
  - eexists.
    assert (execAsync "xcrun simctl list devices" (world (loaded bare))
            = (Throw (failure ("Command failed: xcrun simctl list devices" +:+ LF +:+
                               "/bin/sh: not found")), world (loaded bare))) as Hexec
      by (vm_compute; reflexivity).
    split; [exact Hexec |].
    exact (proj1 (get_booted_sim_id_answers (loaded bare)) _ _ Hexec).
Defined.

(** Two byte strings with the same base64 text. *)
Lemma base64_text_is_faithful_witness :
  Base64.encode pixels1 = Base64.encode ["M"%byte; "a"%byte; "n"%byte] /\
  pixels1 = ["M"%byte; "a"%byte; "n"%byte].
Proof.
  assert (Base64.encode pixels1 = Base64.encode ["M"%byte; "a"%byte; "n"%byte]) as Heq
    by (vm_compute; reflexivity).
  split; [exact Heq |].
  exact (proj2 base64_text_is_faithful _ _ Heq).
Defined.

(** A capture under [home] leaves the handle of the list and the bytes of
    any other name alone. *)
Lemma tool_calls_leave_the_rest_witness :
  registeredResources (server (loaded mac)) !! "screenshot://list" = Some list_resource /\
  registeredResources
    (server (snd (call_tool (TakeScreenshot "DEV" (Some "home") None) (loaded mac))))
    !! "screenshot://list" = Some list_resource /\
  JsMap.get "other"
    (screenshots (snd (call_tool (TakeScreenshot "DEV" (Some "home") None) (loaded mac))))
  = JsMap.get "other" (screenshots (loaded mac)).
Proof.
  assert (registeredResources (server (loaded mac)) !! "screenshot://list" = Some list_resource)
    as Hlist by (vm_compute; reflexivity).
  destruct (tool_calls_leave_the_rest (TakeScreenshot "DEV" (Some "home") None) (loaded mac))
    as (Hkept & Hother).
  split; [exact Hlist |]. split; [exact (Hkept _ _ Hlist) |].
  apply Hother.
  - intros n Hn. discriminate.
  - intros deviceId name outputPath [= _ <- _]. vm_compute. discriminate.
Defined.

End BeyondOnTheMac.
